(** * moto.dynamodb2: expression tokenizer and typed attribute values

    A shallow embedding of [moto/dynamodb2/parsing/tokens.py] and
    [moto/dynamodb2/models/dynamo_type.py], and of the repositories of
    [moto/codecommit/models.py] and the generators of
    [moto/apigateway/utils.py], [moto/cloudformation/utils.py] and
    [moto/applicationautoscaling/utils.py], followed by the properties of
    these modules.

    Conventions of the embedding.
    - A Python [str] is a [string]; every [ascii] is one character, the code
      point of the same number (the code points below 256).
    - A method that mutates [self] returns the new [self].
    - A method that can raise returns [exception + _]; [inl e] is [raise e].
    - A Python [dict] with [str] keys is a [gmap string _]; a Python [list]
      is a [list]. *)

From Stdlib Require Import ZArith NArith Ascii String DecimalString DecimalPos.
From Stdlib Require Import SpecFloat.
From stdpp Require Import gmap strings list fin_maps.

Local Open Scope string_scope.

(** ** Python builtins used by the two modules *)

Module Py.

Inductive exception :=
| TypeError (msg : string)
| ValueError
| IndexError
| OverflowError
| AssertionError
| NotImplementedError
| IncorrectDataType
| InvalidTokenException (token near : string)
| InvalidExpressionAttributeNameKey (key : string).

Definition result : Type → Type := sum exception.

(** [x ← e; k] runs [e] and, unless it raised, continues with [k]. *)
#[global] Instance result_bind : MBind result := λ A B k x,
  match x with
  | inl e => inl e
  | inr a => k a
  end.

#[global] Instance result_ret : MRet result := λ A a, inr a.

Definition ord (c : ascii) : N := N_of_ascii c.

Definition between (lo hi : N) (c : ascii) : bool :=
  (lo <=? ord c)%N && (ord c <=? hi)%N.

(** The one-character string [c]. *)
Definition chr (c : ascii) : string := String c EmptyString.

(** [str.isalnum] of one character: the letters and digits of ASCII, and
    above them the letters ([ª µ º À-Ö Ø-ö ø-ÿ]) and the numeric characters
    ([² ³ ¹ ¼ ½ ¾]) of the code points below 256. *)
Definition isalnum (c : ascii) : bool :=
  between 48 57 c || between 65 90 c || between 97 122 c
  || (ord c =? 170)%N || between 178 179 c || (ord c =? 181)%N
  || between 185 186 c || between 188 190 c
  || between 192 214 c || between 216 246 c || between 248 255 c.

(** [str.upper] on the ASCII letters (the only ones it is applied to). *)
Definition upper_char (c : ascii) : ascii :=
  if between 97 122 c then ascii_of_N (ord c - 32) else c.

Fixpoint upper (s : string) : string :=
  match s with
  | EmptyString => EmptyString
  | String c s' => String (upper_char c) (upper s')
  end.

(** [s.replace(a, b)] for one-character [a] and [b]. *)
Fixpoint replace (a b : ascii) (s : string) : string :=
  match s with
  | EmptyString => EmptyString
  | String c s' => String (if Ascii.eqb c a then b else c) (replace a b s')
  end.

(** [c in s] for a one-character [c]. *)
Fixpoint contains (c : ascii) (s : string) : bool :=
  match s with
  | EmptyString => false
  | String d s' => Ascii.eqb d c || contains c s'
  end.

(** [s.index(c)]: the position of the first [c]; [ValueError] without one. *)
Fixpoint index (c : ascii) (s : string) : result nat :=
  match s with
  | EmptyString => inl ValueError
  | String d s' => if Ascii.eqb d c then inr 0 else i ← index c s'; inr (S i)
  end.

(** The slices [s[:n]] and [s[n:]] for [n >= 0]. *)
Fixpoint take (n : nat) (s : string) : string :=
  match n, s with
  | S n', String c s' => String c (take n' s')
  | _, _ => EmptyString
  end.

Fixpoint drop (n : nat) (s : string) : string :=
  match n, s with
  | S n', String _ s' => drop n' s'
  | _, _ => s
  end.

Fixpoint startswith (s p : string) : bool :=
  match p, s with
  | EmptyString, _ => true
  | String a p', String b s' => Ascii.eqb a b && startswith s' p'
  | String _ _, EmptyString => false
  end.

(** [s[0]] *)
Definition first (s : string) : result string :=
  match s with
  | EmptyString => inl IndexError
  | String c _ => inr (chr c)
  end.

(** [l[-1]] *)
Definition last {A} (l : list A) : result A :=
  match list.last l with
  | Some x => inr x
  | None => inl IndexError
  end.

(** [l[i] = v] for a list [l]: a negative [i] counts from the end, an [i]
    outside [-len(l) .. len(l) - 1] raises [IndexError]. *)
Definition list_setitem {A} (l : list A) (i : Z) (v : A) : result (list A) :=
  let n := Z.of_nat (length l) in
  if (0 <=? i)%Z && (i <? n)%Z then inr (<[Z.to_nat i := v]> l)
  else if (- n <=? i)%Z && (i <? 0)%Z then inr (<[Z.to_nat (n + i) := v]> l)
  else inl IndexError.

(** The white space that [int] drops around a literal: the characters 9 to
    13, the space, and the characters 133 and 160. *)
Definition isspace (c : ascii) : bool :=
  between 9 13 c || (ord c =? 32)%N || (ord c =? 133)%N || (ord c =? 160)%N.

Fixpoint lstrip (l : list ascii) : list ascii :=
  match l with
  | c :: l' => if isspace c then lstrip l' else l
  | [] => []
  end.

Definition strip (l : list ascii) : list ascii :=
  reverse (lstrip (reverse (lstrip l))).

Definition isdigit (c : ascii) : bool := between 48 57 c.

(** The digits of an integer literal, most significant first; one
    underscore may stand between two digits. [after_digit] tells whether
    the character before was a digit. *)
Fixpoint int_digits (acc : N) (after_digit : bool) (l : list ascii) : option N :=
  match l with
  | [] => if after_digit then Some acc else None
  | c :: l' =>
      if isdigit c then int_digits (10 * acc + (ord c - 48))%N true l'
      else if Ascii.eqb c "_" && after_digit then int_digits acc false l'
      else None
  end.

(** [int(s)] for a [str]: white space around the literal is dropped, then
    come an optional sign and the digits; anything else is a [ValueError].
    (The limit that the interpreter can put on the number of digits is
    not modelled.) *)
Definition int (s : string) : result Z :=
  let literal := strip (list_ascii_of_string s) in
  let '(negative, digits) :=
    match literal with
    | "-"%char :: l => (true, l)
    | "+"%char :: l => (false, l)
    | l => (false, l)
    end in
  match int_digits 0 false digits with
  | Some n => inr (if negative then (- Z.of_N n)%Z else Z.of_N n)
  | None => inl ValueError
  end.

(** The value of the digits [d] read after digits of value [acc]: what
    [int_digits] computes on the text of [d]. *)
Fixpoint uint_value (acc : N) (d : Decimal.uint) : N :=
  match d with
  | Decimal.Nil => acc
  | Decimal.D0 d => uint_value (10 * acc + 0) d
  | Decimal.D1 d => uint_value (10 * acc + 1) d
  | Decimal.D2 d => uint_value (10 * acc + 2) d
  | Decimal.D3 d => uint_value (10 * acc + 3) d
  | Decimal.D4 d => uint_value (10 * acc + 4) d
  | Decimal.D5 d => uint_value (10 * acc + 5) d
  | Decimal.D6 d => uint_value (10 * acc + 6) d
  | Decimal.D7 d => uint_value (10 * acc + 7) d
  | Decimal.D8 d => uint_value (10 * acc + 8) d
  | Decimal.D9 d => uint_value (10 * acc + 9) d
  end%N.

(** [str(z)] for an [int], in an interpreter without a limit on the number
    of digits, as for [int] above. *)
Definition str_of_int (z : Z) : string :=
  NilZero.string_of_int (Z.to_int z).

(** The [float] type of the interpreter and its operations: the values of
    [DynamoType] are defined for any such type, and [cpython_float] below
    is the one of CPython. [float_of_str s] is [float(s)] ([None] for
    [ValueError]), [float_of_int z] is [float(z)] ([None] for
    [OverflowError]), [str_of_float] is [str]. *)
Class Float := {
  float : Type;
  float_of_str : string → option float;
  float_of_int : Z → option float;
  float_add : float → float → float;
  float_sub : float → float → float;
  str_of_float : float → string
}.

Inductive number `{Float} :=
| Int (z : Z)
| Flt (x : float).

Section numbers.
Context `{Float}.

(** [float(s) if "." in s else int(s)] *)
Definition number_of_str (s : string) : result number :=
  if contains "." s then
    match float_of_str s with
    | Some x => inr (Flt x)
    | None => inl ValueError
    end
  else z ← int s; inr (Int z).

(** The two operands of [+] or [-] as floats, when one of them is. *)
Definition to_float (a : number) : result float :=
  match a with
  | Int z =>
      match float_of_int z with
      | Some x => inr x
      | None => inl OverflowError
      end
  | Flt x => inr x
  end.

Definition arith (op_int : Z → Z → Z) (op_float : float → float → float)
    (a b : number) : result number :=
  match a, b with
  | Int x, Int y => inr (Int (op_int x y))
  | _, _ => x ← to_float a; y ← to_float b; inr (Flt (op_float x y))
  end.

Definition add : number → number → result number := arith Z.add float_add.
Definition sub : number → number → result number := arith Z.sub float_sub.

(** ["{v}".format(v=a)] *)
Definition format (a : number) : string :=
  match a with
  | Int z => str_of_int z
  | Flt x => str_of_float x
  end.
End numbers.

(** The [float] of CPython: the binary64 format of IEEE 754. A float is a
    [spec_float] of the Standard Library, a zero or an infinity with its
    sign, the one NaN, or [m * 2 ** e] with its sign; the operations round
    to the nearest float, to the one with an even mantissa of two that are
    as near. *)
Module binary64.
Local Open Scope list_scope.

Definition prec : Z := 53.
Definition emax : Z := 1024.

(** [m * 10 ** e], rounded to the nearest float, to the even one of two
    that are as near. *)
Definition of_decimal (negative : bool) (m : N) (e : Z) : spec_float :=
  match m with
  | N0 => S754_zero negative
  | Npos p =>
      match e with
      | Zneg _ =>
          let '(q, e', l) :=
            SFdiv_core_binary prec emax (Zpos p) 0 (10 ^ (- e)) 0 in
          binary_round_aux prec emax negative q e' l
      | _ => binary_round prec emax negative (Z.to_pos (Zpos p * 10 ^ e)) 0
      end
  end.

(** [c.lower()] on the letters of ASCII. *)
Definition lower (c : ascii) : ascii :=
  if between 65 90 c then ascii_of_N (ord c + 32) else c.

(** The literal without its underscores, each of which is to stand between
    two digits. *)
Fixpoint without_underscores (after_digit after_underscore : bool) (l : list ascii)
    : option (list ascii) :=
  match l with
  | [] => if after_underscore then None else Some []
  | c :: l' =>
      if Ascii.eqb c "_" then
        if after_digit then without_underscores false true l' else None
      else if after_underscore && negb (isdigit c) then None
      else (c ::.) <$> without_underscores (isdigit c) false l'
  end.

(** The digits at the start of a text, and the rest of it. *)
Fixpoint span_digits (l : list ascii) : list ascii * list ascii :=
  match l with
  | c :: l' =>
      if isdigit c then let '(d, r) := span_digits l' in (c :: d, r)
      else ([], l)
  | [] => ([], [])
  end.

(** The number that digits spell. *)
Definition digits_value (l : list ascii) : N :=
  foldl (λ acc c, 10 * acc + (ord c - 48))%N 0%N l.

(** The exponent after the mantissa: nothing, or [e], a sign and digits. *)
Definition exponent (l : list ascii) : option Z :=
  match l with
  | [] => Some 0%Z
  | c :: l' =>
      if Ascii.eqb (lower c) "e" then
        let '(negative, l'') :=
          match l' with
          | "-"%char :: l'' => (true, l'')
          | "+"%char :: l'' => (false, l'')
          | _ => (false, l')
          end in
        match span_digits l'' with
        | ((_ :: _) as d, []) =>
            let n := Z.of_N (digits_value d) in
            Some (if negative then - n else n)%Z
        | _ => None
        end
      else None
  end.

(** [float(s)] for a [str]; [None] is [ValueError]. White space around the
    literal is dropped as by [int]; then come an optional sign and [inf],
    [infinity] or [nan] in letters of either case, or digits with at most
    one point among them, and an optional exponent. A number too large is
    an infinity and one too small a zero. *)
Definition of_str (s : string) : option spec_float :=
  literal ← without_underscores false false (strip (list_ascii_of_string s));
  let '(negative, body) :=
    match literal with
    | "-"%char :: l => (true, l)
    | "+"%char :: l => (false, l)
    | l => (false, l)
    end in
  let word := string_of_list_ascii (lower <$> body) in
  if bool_decide (word = "inf") || bool_decide (word = "infinity")
  then Some (S754_infinity negative)
  else if bool_decide (word = "nan") then Some S754_nan
  else
    let '(whole, rest) := span_digits body in
    let '(fraction, rest) :=
      match rest with
      | "."%char :: rest => span_digits rest
      | _ => ([], rest)
      end in
    match whole ++ fraction with
    | [] => None
    | mantissa =>
        e ← exponent rest;
        Some (of_decimal negative (digits_value mantissa)
                (e - Z.of_nat (length fraction)))
    end.

(** [float(z)] for an [int], rounded as the other operations; [None] is
    the [OverflowError] of an integer that rounds to no finite float. *)
Definition of_int (z : Z) : option spec_float :=
  match binary_normalize prec emax z 0 false with
  | S754_infinity _ => None
  | x => Some x
  end.

(** [x + y] and [x - y] *)
Definition add : spec_float → spec_float → spec_float := SFadd prec emax.
Definition sub : spec_float → spec_float → spec_float := SFsub prec emax.

(** The number of decimal digits of a number, none for 0. *)
Definition nb_digits (n : N) : nat :=
  match n with
  | N0 => 0
  | _ => Decimal.nb_digits (N.to_uint n)
  end.

(** [p] with [10 ** (p - 1) <= num / den < 10 ** p] *)
Definition decimal_exponent (num den : Z) : Z :=
  if (den <=? num)%Z then Z.of_nat (nb_digits (Z.to_N (num / den)))
  else (1 - Z.of_nat (nb_digits (Z.to_N ((den + num - 1) / num - 1))))%Z.

(** The shortest decimal [m * 10 ** k] that [of_decimal] rounds to the float
    [mx * 2 ** ex], and the nearest to it of those as short, the even one of
    two that are as near: [n] digits are tried, then one more. *)
Fixpoint shortest (fuel : nat) (n : Z) (mx : positive) (ex : Z) (p : Z) : N * Z :=
  let num := (Zpos mx * 2 ^ Z.max ex 0)%Z in
  let den := (2 ^ Z.max (- ex) 0)%Z in
  let k := (p - n)%Z in
  let num' := (num * 10 ^ Z.max (- k) 0)%Z in
  let den' := (den * 10 ^ Z.max k 0)%Z in
  let lo := Z.to_N (num' / den') in
  let hi := (lo + 1)%N in
  let reads m :=
    match of_decimal false m k with
    | S754_finite _ mx' ex' => Pos.eqb mx' mx && Z.eqb ex' ex
    | _ => false
    end in
  let next :=
    match fuel with
    | O => (lo, k)
    | S fuel => shortest fuel (n + 1) mx ex p
    end in
  match reads lo, reads hi with
  | true, true =>
      match (2 * num' ?= (2 * Z.of_N lo + 1) * den')%Z with
      | Lt => (lo, k)
      | Gt => (hi, k)
      | Eq => if N.even lo then (lo, k) else (hi, k)
      end
  | true, false => (lo, k)
  | false, true => (hi, k)
  | false, false => next
  end.

(** The digits without the zeros at their end. *)
Fixpoint strip_zeros (l : list ascii) : list ascii :=
  match l with
  | [] => []
  | c :: l' =>
      match strip_zeros l' with
      | [] => if Ascii.eqb c "0" then [] else [c]
      | r => c :: r
      end
  end.

Definition zeros (n : nat) : list ascii := replicate n "0"%char.

(** [repr(x)], which is [str(x)] and ["{v}".format(v=x)]: the digits of
    the shortest decimal, with the point after the first [decpt] of them
    and [.0] after the digits of an integer, or, for [decpt] above 16 or
    below -3, with an exponent of two digits or more after the first of
    them. *)
Definition repr (x : spec_float) : string :=
  match x with
  | S754_nan => "nan"
  | S754_infinity s => if s then "-inf" else "inf"
  | S754_zero s => if s then "-0.0" else "0.0"
  | S754_finite s mx ex =>
      let num := (Zpos mx * 2 ^ Z.max ex 0)%Z in
      let den := (2 ^ Z.max (- ex) 0)%Z in
      let '(m, k) := shortest 16 1 mx ex (decimal_exponent num den) in
      let all := list_ascii_of_string (NilZero.string_of_uint (N.to_uint m)) in
      let decpt := (Z.of_nat (length all) + k)%Z in
      let digits := strip_zeros all in
      let body :=
        if (decpt <=? -4)%Z || (16 <? decpt)%Z then
          let e := (decpt - 1)%Z in
          let e_digits :=
            list_ascii_of_string (NilZero.string_of_uint (N.to_uint (Z.to_N (Z.abs e)))) in
          match digits with
          | [] => []
          | d :: ds =>
              (d :: match ds with [] => [] | _ => "."%char :: ds end)
                ++ "e"%char :: (if (e <? 0)%Z then "-" else "+")%char
                :: (match e_digits with [_] => "0"%char :: e_digits | _ => e_digits end)
          end
        else if (decpt <=? 0)%Z then
          "0"%char :: "."%char :: zeros (Z.to_nat (- decpt)) ++ digits
        else if (Z.of_nat (length digits) <=? decpt)%Z then
          digits ++ zeros (Z.to_nat decpt - length digits) ++ [ "."%char; "0"%char ]
        else
          firstn (Z.to_nat decpt) digits ++ "."%char :: skipn (Z.to_nat decpt) digits
      in
      string_of_list_ascii ((if s then ["-"%char] else []) ++ body)
  end.

End binary64.

Definition cpython_float : Float := {|
  float := spec_float;
  float_of_str := binary64.of_str;
  float_of_int := binary64.of_int;
  float_add := binary64.add;
  float_sub := binary64.sub;
  str_of_float := binary64.repr
|}.

End Py.


(** ** The regular expressions of [tokens.py]

    [re.compile(p).match(s) is not None] for the patterns the tokenizer
    compiles: character sets, concatenation, [*], [+], and the anchors [^]
    and [$] at the two ends of a pattern. [match] looks for a match that
    starts at the first character of [s], so [^] adds nothing to it; [$]
    asks that the match ends at the end of [s] or just before a newline that
    is the last character of [s]. *)

Module re.

Inductive item :=
| One (c : ascii)
| Range (lo hi : ascii).

Definition item_has (c : ascii) (i : item) : bool :=
  match i with
  | One d => Ascii.eqb c d
  | Range lo hi => Py.between (Py.ord lo) (Py.ord hi) c
  end.

Inductive regex :=
| Void
| Eps
| Lit (c : ascii)
| Class (items : list item)
| Cat (r1 r2 : regex)
| Alt (r1 r2 : regex)
| Star (r : regex)
| Plus (r : regex).

Record pattern := Pattern { bol : bool; body : regex; eol : bool }.

(** The words of a regular expression. *)
Inductive lang : regex → list ascii → Prop :=
| lang_Eps : lang Eps []
| lang_Lit c : lang (Lit c) [c]
| lang_Class items c : existsb (item_has c) items = true → lang (Class items) [c]
| lang_Cat r1 r2 u v : lang r1 u → lang r2 v → lang (Cat r1 r2) (u ++ v)
| lang_Alt_l r1 r2 u : lang r1 u → lang (Alt r1 r2) u
| lang_Alt_r r1 r2 u : lang r2 u → lang (Alt r1 r2) u
| lang_Star_nil r : lang (Star r) []
| lang_Star_cons r u v : lang r u → lang (Star r) v → lang (Star r) (u ++ v)
| lang_Plus r u v : lang r u → lang (Star r) v → lang (Plus r) (u ++ v).

(** Matching by derivatives. *)
Fixpoint nullable (r : regex) : bool :=
  match r with
  | Void | Lit _ | Class _ => false
  | Eps | Star _ => true
  | Cat r1 r2 => nullable r1 && nullable r2
  | Alt r1 r2 => nullable r1 || nullable r2
  | Plus r => nullable r
  end.

Fixpoint deriv (c : ascii) (r : regex) : regex :=
  match r with
  | Void | Eps => Void
  | Lit d => if Ascii.eqb c d then Eps else Void
  | Class items => if existsb (item_has c) items then Eps else Void
  | Cat r1 r2 =>
      if nullable r1 then Alt (Cat (deriv c r1) r2) (deriv c r2)
      else Cat (deriv c r1) r2
  | Alt r1 r2 => Alt (deriv c r1) (deriv c r2)
  | Star r => Cat (deriv c r) (Star r)
  | Plus r => Cat (deriv c r) (Star r)
  end.

(** Some prefix of [s] is a word of [r]. *)
Fixpoint matches_prefix (r : regex) (s : list ascii) : bool :=
  nullable r ||
  match s with
  | [] => false
  | c :: s' => matches_prefix (deriv c r) s'
  end.

Definition newline : ascii := "010"%char.

(** [s] is a word of [r], or a word of [r] and one newline. *)
Fixpoint matches_to_eol (r : regex) (s : list ascii) : bool :=
  match s with
  | [] => nullable r
  | c :: s' =>
      (nullable r && Ascii.eqb c newline && bool_decide (s' = []))
      || matches_to_eol (deriv c r) s'
  end.

(** [re.compile(p).match(s) is not None] *)
Definition match_ (p : pattern) (s : string) : bool :=
  if eol p then matches_to_eol (body p) (list_ascii_of_string s)
  else matches_prefix (body p) (list_ascii_of_string s).

Definition alnum : list item := [Range "a" "z"; Range "A" "Z"; Range "0" "9"].
Definition word : list item := alnum ++ [One "_"].
Definition digit : list item := [Range "0" "9"].

End re.

(** ** [class Token] *)

Module Token.

Definition MINUS_SIGN := "-".
Definition PLUS_SIGN := "+".
Definition SPACE_SIGN := " ".
Definition EQUAL_SIGN := "=".
Definition OPEN_ROUND_BRACKET := "(".
Definition CLOSE_ROUND_BRACKET := ")".
Definition COMMA := ",".
Definition SPACE := " ".
Definition DOT := ".".
Definition OPEN_SQUARE_BRACKET := "[".
Definition CLOSE_SQUARE_BRACKET := "]".

Definition SPECIAL_CHARACTERS : list string :=
  [ MINUS_SIGN; PLUS_SIGN; SPACE_SIGN; EQUAL_SIGN; OPEN_ROUND_BRACKET;
    CLOSE_ROUND_BRACKET; COMMA; SPACE; DOT; OPEN_SQUARE_BRACKET;
    CLOSE_SQUARE_BRACKET ].

(** A token type is one of the special characters (a [str]) or one of the
    placeholder numbers (an [int]). *)
Inductive token_type :=
| Str (s : string)
| Int (n : Z).

#[global] Instance token_type_eq_dec : EqDecision token_type.
Proof. solve_decision. Defined.

Definition ATTRIBUTE := Int 0.
Definition ATTRIBUTE_NAME := Int 1.
Definition ATTRIBUTE_VALUE := Int 2.
Definition WHITESPACE := Int 3.
Definition NUMBER := Int 4.

Definition PLACEHOLDER_NAMES : list (token_type * string) :=
  [ (ATTRIBUTE, "Attribute"); (ATTRIBUTE_NAME, "AttributeName");
    (ATTRIBUTE_VALUE, "AttributeValue"); (WHITESPACE, "Whitespace");
    (NUMBER, "Number") ].

Record t := Token { type : token_type; value : string }.

#[global] Instance t_eq_dec : EqDecision t.
Proof. solve_decision. Defined.

Definition __init__ (token_type : token_type) (value : string) : Py.result t :=
  if bool_decide (token_type ∈ Str <$> SPECIAL_CHARACTERS)
     || bool_decide (token_type ∈ PLACEHOLDER_NAMES.*1)
  then inr (Token token_type value)
  else inl Py.AssertionError.

Definition __eq__ (self other : t) : bool :=
  bool_decide (type self = type other) && bool_decide (value self = value other).

End Token.

(** ** [class ExpressionTokenizer] *)

Module ExpressionTokenizer.

Record t := Tokenizer {
  input_expression_str : string;
  token_list : list Token.t;
  staged_characters : string
}.

Definition set_token_list (self : t) (l : list Token.t) : t :=
  Tokenizer (input_expression_str self) l (staged_characters self).

Definition set_staged_characters (self : t) (s : string) : t :=
  Tokenizer (input_expression_str self) (token_list self) s.

Definition is_simple_token_character (character : ascii) : bool :=
  Py.isalnum character || bool_decide (Py.chr character ∈ ["_"; ":"; "#"]).

Definition is_possible_token_boundary (character : ascii) : bool :=
  bool_decide (Py.chr character ∈ Token.SPECIAL_CHARACTERS)
  || negb (is_simple_token_character character).

(** [^[a-zA-Z0-9][a-zA-Z0-9_]*$] *)
Definition is_expression_attribute (input_string : string) : bool :=
  re.match_
    (re.Pattern true (re.Cat (re.Class re.alnum) (re.Star (re.Class re.word))) true)
    input_string.

Definition is_expression_attribute_name (input_string : string) : bool :=
  Py.startswith input_string "#" && is_expression_attribute (Py.drop 1 input_string).

(** [^:[a-zA-Z0-9_]*$] *)
Definition is_expression_attribute_value (input_string : string) : bool :=
  re.match_
    (re.Pattern true (re.Cat (re.Lit ":") (re.Star (re.Class re.word))) true)
    input_string.

(** Always raises: the result type is that of the callers. *)
Definition raise_unexpected_token (self : t) : Py.result t :=
  let near :=
    match reverse (token_list self) with
    | [] => ""
    | [only] => Token.value only
    | last :: before :: _ =>
        if bool_decide (Token.type last = Token.WHITESPACE)
        then Token.value before ++ Token.value last
        else Token.value last
    end in
  problematic_token ← Py.first (staged_characters self);
  inl (Py.InvalidTokenException problematic_token (near ++ staged_characters self)).

Definition __init__ (input_expression_str : string) : t :=
  Tokenizer input_expression_str [] "".

Definition add_token (self : t) (token_type : Token.token_type)
    (token_value : string) : Py.result t :=
  token ← Token.__init__ token_type token_value;
  inr (set_token_list self (token_list self ++ [token])).

Definition add_token_from_stage (self : t) (token_type : Token.token_type)
    : Py.result t :=
  self ← add_token self token_type (staged_characters self);
  inr (set_staged_characters self "").

(** [[0-9]+], not anchored at its end *)
Definition is_numeric (input_str : string) : bool :=
  re.match_ (re.Pattern false (re.Plus (re.Class re.digit)) false) input_str.

Definition process_staged_characters (self : t) : Py.result t :=
  if bool_decide (String.length (staged_characters self) = 0) then inr self
  else if Py.startswith (staged_characters self) "#" then
    if is_expression_attribute_name (staged_characters self)
    then add_token_from_stage self Token.ATTRIBUTE_NAME
    else inl (Py.InvalidExpressionAttributeNameKey (staged_characters self))
  else if is_numeric (staged_characters self) then
    add_token_from_stage self Token.NUMBER
  else if is_expression_attribute (staged_characters self) then
    add_token_from_stage self Token.ATTRIBUTE
  else if is_expression_attribute_value (staged_characters self) then
    add_token_from_stage self Token.ATTRIBUTE_VALUE
  else raise_unexpected_token self.

(** The body of the loop of [_make_list], for one character. *)
Definition _make_list_step (self : t) (character : ascii) : Py.result t :=
  if negb (is_possible_token_boundary character) then
    inr (set_staged_characters self (staged_characters self ++ Py.chr character))
  else
    self ← process_staged_characters self;
    if bool_decide (Py.chr character = Token.SPACE) then
      match list.last (token_list self) with
      | Some last =>
          if bool_decide (Token.type last = Token.WHITESPACE) then
            inr (set_token_list self
                   (<[pred (length (token_list self)) :=
                        Token.Token (Token.type last)
                          (Token.value last ++ Py.chr character)]>
                      (token_list self)))
          else add_token self Token.WHITESPACE (Py.chr character)
      | None => add_token self Token.WHITESPACE (Py.chr character)
      end
    else if bool_decide (Py.chr character ∈ Token.SPECIAL_CHARACTERS) then
      add_token self (Token.Str (Py.chr character)) (Py.chr character)
    else if negb (is_simple_token_character character) then
      raise_unexpected_token
        (set_staged_characters self (staged_characters self ++ Py.chr character))
    else inl Py.NotImplementedError.

Fixpoint _make_list_loop (self : t) (characters : list ascii) : Py.result t :=
  match characters with
  | [] => inr self
  | character :: rest =>
      self ← _make_list_step self character;
      _make_list_loop self rest
  end.

Definition _make_list (self : t) : Py.result (list Token.t) :=
  self ← _make_list_loop self (list_ascii_of_string (input_expression_str self));
  self ← process_staged_characters self;
  inr (token_list self).

Definition make_list (input_expression_str : string) : Py.result (list Token.t) :=
  _make_list (__init__ input_expression_str).

(** The text that a list of tokens spells: the values of the tokens, one
    after the other. *)
Definition spelled (tokens : list Token.t) : string :=
  foldr (λ token text, Token.value token ++ text) "" tokens.

(** No two tokens that follow one another are both [WHITESPACE]. *)
Fixpoint whitespace_merged (tokens : list Token.t) : bool :=
  match tokens with
  | a :: (b :: _) as rest =>
      negb (bool_decide (Token.type a = Token.WHITESPACE)
            && bool_decide (Token.type b = Token.WHITESPACE))
      && whitespace_merged rest
  | _ => true
  end.

(** What the tokenizer emits under each token type: a staged buffer under
    the type of the first test of [process_staged_characters] that it passes,
    a run of spaces under [WHITESPACE], and another special character under
    itself. *)
Definition classified (token : Token.t) : bool :=
  let value := Token.value token in
  match Token.type token with
  | Token.Str character =>
      bool_decide (value = character)
      && bool_decide (character ∈ Token.SPECIAL_CHARACTERS)
      && negb (bool_decide (character = Token.SPACE))
  | ty =>
      if bool_decide (ty = Token.ATTRIBUTE_NAME) then
        is_expression_attribute_name value
      else if bool_decide (ty = Token.NUMBER) then
        negb (Py.startswith value "#") && is_numeric value
      else if bool_decide (ty = Token.ATTRIBUTE) then
        negb (Py.startswith value "#") && negb (is_numeric value)
        && is_expression_attribute value
      else if bool_decide (ty = Token.ATTRIBUTE_VALUE) then
        negb (Py.startswith value "#") && negb (is_numeric value)
        && negb (is_expression_attribute value)
        && is_expression_attribute_value value
      else if bool_decide (ty = Token.WHITESPACE) then
        negb (bool_decide (value = ""))
        && forallb (λ c, bool_decide (Py.chr c = Token.SPACE)) (list_ascii_of_string value)
      else false
  end.

(** The state after a token has been added from the stage. *)
Definition staged_as (self : t) (ty : Token.token_type) : t :=
  Tokenizer (input_expression_str self)
    (token_list self ++ [Token.Token ty (staged_characters self)]) "".

(** The state of the tokenizer in the loop: its tokens are classified, and
    no two of them that follow one another are [WHITESPACE]. *)
Definition tokens_kept (self : t) : Prop :=
  forallb classified (token_list self) = true
  ∧ whitespace_merged (token_list self) = true.

(** The text that the tokenizer has read: its tokens and its stage. *)
Definition read (self : t) : string :=
  spelled (token_list self) +:+ staged_characters self.

End ExpressionTokenizer.

(** ** [class DDBType] and [class DDBTypeConversion] *)

Module DDBType.

Definition BINARY_SET := "BS".
Definition NUMBER_SET := "NS".
Definition STRING_SET := "SS".
Definition STRING := "S".
Definition NUMBER := "N".
Definition MAP := "M".
Definition LIST := "L".
Definition BOOLEAN := "BOOL".
Definition BINARY := "B".
Definition NULL := "NULL".

(** The assignments of the class body: name and value. *)
Definition constants : list (string * string) :=
  [ ("BINARY_SET", BINARY_SET); ("NUMBER_SET", NUMBER_SET);
    ("STRING_SET", STRING_SET); ("STRING", STRING); ("NUMBER", NUMBER);
    ("MAP", MAP); ("LIST", LIST); ("BOOLEAN", BOOLEAN); ("BINARY", BINARY);
    ("NULL", NULL) ].

(** [DDBType.__dict__.items()]: the attributes of the class whose value is
    a [str], in the order of the class. (The two others that the
    interpreter adds, [__dict__] and [__weakref__], have lower-case letters
    in their names, as [__module__] and [__doc__] have.) *)
Definition __dict__ : list (string * string) :=
  [ ("__module__", "moto.dynamodb2.models.dynamo_type");
    ("__doc__", "Official documentation") ] ++ constants.

End DDBType.

Module DDBTypeConversion.

(** [{val: key.replace("_", " ") for key, val in ... if key.upper() == key}] *)
Definition _human_type_mapping : gmap string string :=
  foldl
    (λ mapping '(key, val),
       if bool_decide (Py.upper key = key)
       then <[val := Py.replace "_" " " key]> mapping
       else mapping)
    ∅ DDBType.__dict__.

Definition get_human_type (abbreviated_type : string) : string :=
  default abbreviated_type (_human_type_mapping !! abbreviated_type).

End DDBTypeConversion.

(** ** [moto.dynamodb2.models.utilities.bytesize] *)

(** Modelled from the spec: [bytesize], the scalar byte-size estimator of
    [moto/dynamodb2/models/utilities.py], which [dynamo_type.py] imports: the
    byte length of the text. A character below 128 is one byte of the text,
    a character from 128 to 255 is two. *)
Definition bytesize (val : string) : nat :=
  sum_list ((λ c, if (Py.ord c <? 128)%N then 1 else 2) <$> list_ascii_of_string val).

(** ** [class DynamoType] *)

Module DynamoType.

(** The type of a value fixes the shape of the value, as in the
    [AttributeValue] format that [DDBType] refers to: a [str] under [S],
    [N] and [B]; a [bool] under [BOOL] and [NULL]; a list of [str] under
    [SS], [NS] and [BS]; a list of values under [L]; a [dict] from [str] to
    values under [M]. *)
Inductive text_type := S_ | N_ | B_.
Inductive flag_type := BOOL_ | NULL_.
Inductive set_type := SS_ | NS_ | BS_.

Local Unset Elimination Schemes.

Inductive t :=
| Text (ty : text_type) (value : string)
| Flag (ty : flag_type) (value : bool)
| StrSet (ty : set_type) (value : list string)
| List (value : list t)
| Map (value : gmap string t).

Definition text_code (ty : text_type) : string :=
  match ty with
  | S_ => DDBType.STRING
  | N_ => DDBType.NUMBER
  | B_ => DDBType.BINARY
  end.

Definition flag_code (ty : flag_type) : string :=
  match ty with
  | BOOL_ => DDBType.BOOLEAN
  | NULL_ => DDBType.NULL
  end.

Definition set_code (ty : set_type) : string :=
  match ty with
  | SS_ => DDBType.STRING_SET
  | NS_ => DDBType.NUMBER_SET
  | BS_ => DDBType.BINARY_SET
  end.

(** [self.type] *)
Definition type (self : t) : string :=
  match self with
  | Text ty _ => text_code ty
  | Flag ty _ => flag_code ty
  | StrSet ty _ => set_code ty
  | List _ => DDBType.LIST
  | Map _ => DDBType.MAP
  end.

(** [sub_type = self.type[0]] of a set: [S] for [SS], [N] for [NS], [B] for
    [BS]. *)
Definition sub_type (ty : set_type) : text_type :=
  match ty with
  | SS_ => S_
  | NS_ => N_
  | BS_ => B_
  end.

(** The argument of the constructor: a [DynamoType], or a [dict] with one
    key, the type, whose value has the shape of that type; the members of a
    list or of a map are again such arguments. *)
Inductive type_as_dict :=
| Instance (d : t)
| DText (ty : text_type) (value : string)
| DFlag (ty : flag_type) (value : bool)
| DStrSet (ty : set_type) (value : list string)
| DList (value : list type_as_dict)
| DMap (value : gmap string type_as_dict).

Local Set Elimination Schemes.

(** The constructor on a [DynamoType]: the type and the value of the
    argument, with the members of a list or of a map constructed from the
    members of the argument. *)
Fixpoint copy (type_as_dict : t) : t :=
  match type_as_dict with
  | List value => List (copy <$> value)
  | Map value => Map (copy <$> value)
  | _ => type_as_dict
  end.

Fixpoint __init__ (type_as_dict : type_as_dict) : t :=
  match type_as_dict with
  | Instance d => copy d
  | DText ty value => Text ty value
  | DFlag ty value => Flag ty value
  | DStrSet ty value => StrSet ty value
  | DList value => List (__init__ <$> value)
  | DMap value => Map (__init__ <$> value)
  end.

Definition is_number (self : t) : bool :=
  bool_decide (type self = DDBType.NUMBER).

Definition is_set (self : t) : bool :=
  bool_decide (type self ∈ [DDBType.STRING_SET; DDBType.NUMBER_SET; DDBType.BINARY_SET]).

Definition is_list (self : t) : bool :=
  bool_decide (type self = DDBType.LIST).

Definition is_map (self : t) : bool :=
  bool_decide (type self = DDBType.MAP).

Definition same_type (self other : t) : bool :=
  bool_decide (type self = type other).

(** [{self.type: self.value}]: the members of a list or of a map are the
    [DynamoType]s that the value holds. *)
Definition to_json (self : t) : type_as_dict :=
  match self with
  | Text ty value => DText ty value
  | Flag ty value => DFlag ty value
  | StrSet ty value => DStrSet ty value
  | List value => DList (Instance <$> value)
  | Map value => DMap (Instance <$> value)
  end.

(** [expr[: expr.index(".")]] for the expressions with a ["."] *)
Definition nested_projections (projection_expressions : list string) : list string :=
  omap
    (λ expr,
       if Py.contains "." expr then
         match Py.index "." expr with
         | inr i => Some (Py.take i expr)
         | inl _ => None
         end
       else None)
    projection_expressions.

(** [expr[len(f"{attr}.") :]] for the expressions that start with
    [f"{attr}."] *)
Definition relevant_expressions (attr : string)
    (projection_expressions : list string) : list string :=
  omap
    (λ expr,
       if Py.startswith expr (attr ++ ".")
       then Some (Py.drop (String.length (attr ++ ".")) expr)
       else None)
    projection_expressions.

(** The first loop of [filter] goes through the keys of [self.value],
    collects [expressions_to_delete] and filters the members under a nested
    projection in place; the second loop pops the collected keys. *)
Fixpoint filter (self : t) (projection_expressions : list string) : t :=
  match self with
  | Map value =>
      let '(value, expressions_to_delete) :=
        map_fold
          (λ attr member '(value, expressions_to_delete),
             if bool_decide (attr ∉ projection_expressions)
                && bool_decide (attr ∉ nested_projections projection_expressions)
             then (value, (expressions_to_delete ++ [attr])%list)
             else if bool_decide (attr ∈ nested_projections projection_expressions)
             then (<[attr := filter member
                               (relevant_expressions attr projection_expressions)]>
                     value,
                   expressions_to_delete)
             else (value, expressions_to_delete))
          (value, []) value in
      Map (foldl (λ value expr, delete expr value) value expressions_to_delete)
  | _ => self
  end.

(** What the projection is to leave under the key [attr] of a map that
    holds [member] there: the member filtered by the relevant expressions
    when [attr] is a nested projection, the member itself when [attr] is one
    of the expressions, nothing otherwise. [filter] is compared with it in
    [filter_Map] below. *)
Definition projected (projection_expressions : list string)
    (attr : string) (member : t) : option t :=
  if bool_decide (attr ∈ nested_projections projection_expressions)
  then Some (filter member (relevant_expressions attr projection_expressions))
  else if bool_decide (attr ∈ projection_expressions) then Some member
  else None.

(** [self.type == other.type and self.value == other.value]: two lists are
    equal when they have the same length and equal members at each index,
    two dicts when they have the same number of keys and each key of the
    first has an equal value in the second. *)
Fixpoint __eq__ (self other : t) : bool :=
  bool_decide (type self = type other) &&
  match self, other with
  | Text _ a, Text _ b => bool_decide (a = b)
  | Flag _ a, Flag _ b => bool_decide (a = b)
  | StrSet _ a, StrSet _ b => bool_decide (a = b)
  | List a, List b =>
      (fix list_eq (a b : list t) : bool :=
         match a, b with
         | [], [] => true
         | x :: a', y :: b' => __eq__ x y && list_eq a' b'
         | _, _ => false
         end) a b
  | Map a, Map b =>
      bool_decide (base.size a = base.size b) &&
      map_fold
        (λ key x acc,
           acc && match b !! key with
                  | Some y => __eq__ x y
                  | None => false
                  end)
        true a
  | _, _ => false
  end.

Definition __ne__ (self other : t) : bool := negb (__eq__ self other).

(** [self.value] of a value that holds a [str]. *)
Definition text (self : t) : string :=
  match self with
  | Text _ value => value
  | _ => ""
  end.

Section arithmetic.
Context `{Py.Float}.

Definition __add__ (self other : t) : Py.result t :=
  if bool_decide (type self ≠ type other) then
    inl (Py.TypeError "Different types of operandi is not allowed.")
  else if negb (is_number self) then inl Py.IncorrectDataType
  else
    self_value ← Py.number_of_str (text self);
    other_value ← Py.number_of_str (text other);
    v ← Py.add self_value other_value;
    inr (__init__ (DText N_ (Py.format v))).

Definition __sub__ (self other : t) : Py.result t :=
  if bool_decide (type self ≠ type other) then
    inl (Py.TypeError "Different types of operandi is not allowed.")
  else if bool_decide (type self ≠ DDBType.NUMBER) then
    inl (Py.TypeError "Sum only supported for Numbers.")
  else
    self_value ← Py.number_of_str (text self);
    other_value ← Py.number_of_str (text other);
    v ← Py.sub self_value other_value;
    inr (__init__ (DText N_ (Py.format v))).
End arithmetic.

(** A key of [__setitem__]: an [int] (a [bool] is one: [True] is 1 and
    [False] is 0), a [str], or any other object. The two tests [is_list] and
    [is_map] are the two matches on the shape of [self]. *)
Inductive key :=
| KInt (i : Z)
| KStr (s : string)
| KOther.

Definition __setitem__ (self : t) (key : key) (value : t) : Py.result t :=
  match key with
  | KInt i =>
      match self with
      | List l =>
          if (i >=? Z.of_nat (length l))%Z then inr (List (l ++ [value]))
          else l' ← Py.list_setitem l i value; inr (List l')
      | _ => inr self
      end
  | KStr s =>
      match self with
      | Map m => inr (Map (<[s := value]> m))
      | _ => inr self
      end
  | KOther => inl Py.NotImplementedError
  end.

(** [len(str(value))] under [N], [bytesize(value)] under [S] and [B]. *)
Definition size_text (ty : text_type) (value : string) : nat :=
  if is_number (Text ty value) then String.length value else bytesize value.

(** The members of a set are sized as [DynamoType({sub_type: v})], the
    values of a map as [DynamoType(v)]: see [size_set] and [size_map]
    below for these two forms. *)
Fixpoint size (self : t) : nat :=
  match self with
  | Text ty value => size_text ty value
  | StrSet ty value => sum_list (size_text (sub_type ty) <$> value)
  | List value => sum_list (size <$> value)
  | Map value => map_fold (λ k v acc, bytesize k + size v + acc) 0 value
  | Flag _ _ => 1
  end.

(** The nesting of a value, for induction on values: the members of a list
    or of a map are nested less than the list or the map. *)
Fixpoint rank (self : t) : nat :=
  match self with
  | List value => S (sum_list (rank <$> value))
  | Map value => S (map_fold (λ _ v acc, rank v + acc) 0 value)
  | _ => 0
  end.

(** What [__getitem__] raises: the [KeyError] of a [dict] that does not
    hold the key, or another exception. *)
Inductive getitem_exception :=
| KeyError (key : string)
| Raised (e : Py.exception).

Section getitem.
(** [str(type(item))], for the message of the [TypeError]. *)
Variable type_text : key → string.

(** [self.value[item]] under a [str] for a map and under an [int] for a
    list, where a negative [item] counts from the end. *)
Definition __getitem__ (self : t) (item : key) : getitem_exception + t :=
  match item, self with
  | KStr s, Map m =>
      match m !! s with
      | Some member => inr member
      | None => inl (KeyError s)
      end
  | KInt i, List l =>
      let n := Z.of_nat (length l) in
      let index :=
        if (0 <=? i)%Z && (i <? n)%Z then Some (Z.to_nat i)
        else if (- n <=? i)%Z && (i <? 0)%Z then Some (Z.to_nat (n + i))
        else None in
      match index ≫= (l !!.) with
      | Some member => inr member
      | None => inl (Raised Py.IndexError)
      end
  | _, _ =>
      inl (Raised (Py.TypeError
                     ("This DynamoType " ++ type self
                        ++ " is not subscriptable by a " ++ type_text item)))
  end.
End getitem.

(** [None] is the result when there is no such child. *)
Definition child_attr (self : t) (key : key) : option t :=
  match key, self with
  | KStr s, Map m => copy <$> m !! s
  | KInt idx, List l =>
      if (0 <=? idx)%Z && (idx <? Z.of_nat (length l))%Z
      then copy <$> l !! Z.to_nat idx
      else None
  | _, _ => None
  end.

End DynamoType.

(** * [moto/codecommit/models.py] *)

(** The repository of the service, [CodeCommit]: an object with one
    attribute, the [dict] of its metadata, whose values are all [str]. The
    clock and [uuid.uuid4] are read once each by the constructor: what they
    give is an argument here. [ACCOUNT_ID] is the constant of [moto.core]. *)
Module CodeCommit.
Section repository.
Variable ACCOUNT_ID : string.

Record t := CodeCommit { repository_metadata : gmap string string }.

Definition __init__ (current_date uuid4 : string)
    (region repository_description repository_name : string) : t :=
  let repository_metadata : gmap string string := ∅ in
  let repository_metadata :=
    <["repositoryName" := repository_name]> repository_metadata in
  let repository_metadata :=
    <["cloneUrlSsh" :=
        "ssh://git-codecommit." ++ region ++ ".amazonaws.com/v1/repos/"
          ++ repository_name]> repository_metadata in
  let repository_metadata :=
    <["cloneUrlHttp" :=
        "https://git-codecommit." ++ region ++ ".amazonaws.com/v1/repos/"
          ++ repository_name]> repository_metadata in
  let repository_metadata := <["creationDate" := current_date]> repository_metadata in
  let repository_metadata :=
    <["lastModifiedDate" := current_date]> repository_metadata in
  let repository_metadata :=
    <["repositoryDescription" := repository_description]> repository_metadata in
  let repository_metadata := <["repositoryId" := uuid4]> repository_metadata in
  let repository_metadata :=
    <["Arn" :=
        "arn:aws:codecommit:" ++ region ++ ":" ++ ACCOUNT_ID ++ ":"
          ++ repository_name]> repository_metadata in
  let repository_metadata := <["accountId" := ACCOUNT_ID]> repository_metadata in
  CodeCommit repository_metadata.
End repository.
End CodeCommit.

(** The backend of one region: the repositories by name. An exception is
    raised before the backend is changed, so that a call that raises leaves
    the backend as it was. *)
Module CodeCommitBackend.

Inductive exception :=
| RepositoryNameExistsException (repository_name : string)
| RepositoryDoesNotExistException (repository_name : string)
| KeyError (key : string).

Record t := CodeCommitBackend { repositories : gmap string CodeCommit.t }.

Definition __init__ : t := CodeCommitBackend ∅.

Section backend.
Variable ACCOUNT_ID : string.

(** [self.repositories.get(repository_name)] is a repository, which is
    true, or [None]. The metadata that is returned is the [dict] of the
    repository itself. *)
Definition create_repository (self : t) (current_date uuid4 : string)
    (region repository_name repository_description : string)
    : exception + (t * gmap string string) :=
  match repositories self !! repository_name with
  | Some repository => inl (RepositoryNameExistsException repository_name)
  | None =>
      let self :=
        CodeCommitBackend
          (<[repository_name :=
               CodeCommit.__init__ ACCOUNT_ID current_date uuid4
                 region repository_description repository_name]>
             (repositories self)) in
      match repositories self !! repository_name with
      | Some repository => inr (self, CodeCommit.repository_metadata repository)
      | None => inl (KeyError repository_name)
      end
  end.
End backend.

Definition get_repository (self : t) (repository_name : string)
    : exception + gmap string string :=
  match repositories self !! repository_name with
  | Some repository => inr (CodeCommit.repository_metadata repository)
  | None => inl (RepositoryDoesNotExistException repository_name)
  end.

Definition delete_repository (self : t) (repository_name : string)
    : t * option string :=
  match repositories self !! repository_name with
  | Some repository =>
      (CodeCommitBackend (delete repository_name (repositories self)),
       CodeCommit.repository_metadata repository !! "repositoryId")
  | None => (self, None)
  end.

(** A call that changes the backend, and the backend after it. *)
Inductive call :=
| Create (current_date uuid4 region repository_name repository_description : string)
| Delete (repository_name : string).

Definition after (ACCOUNT_ID : string) (self : t) (c : call) : t :=
  match c with
  | Create current_date uuid4 region repository_name repository_description =>
      match create_repository ACCOUNT_ID self current_date uuid4
              region repository_name repository_description with
      | inr (self, _) => self
      | inl _ => self
      end
  | Delete repository_name => (delete_repository self repository_name).1
  end.

(** The repositories of a backend after any calls: each is under its own
    name and has an identifier. *)
Definition named (self : t) : Prop :=
  ∀ name repository,
    repositories self !! name = Some repository →
    CodeCommit.repository_metadata repository !! "repositoryName" = Some name
    ∧ is_Some (CodeCommit.repository_metadata repository !! "repositoryId").

End CodeCommitBackend.

(** * The generators of identifiers *)

(** [random.choice(seq)] takes a member of a sequence that has one; which
    one is the draw of the generator, here a number that is reduced to an
    index. *)
Module random.
Definition choice {A} (seq : list A) (draw : nat) : Py.result A :=
  match seq !! (draw mod length seq) with
  | Some member => inr member
  | None => inl Py.IndexError
  end.
End random.

Module string_.
Definition ascii_lowercase : string := "abcdefghijklmnopqrstuvwxyz".
Definition ascii_uppercase : string := "ABCDEFGHIJKLMNOPQRSTUVWXYZ".
End string_.

(** The members of [chars]: the [int]s of [range(10)] and the one-character
    [str]s of the letters. *)
Module chars.
Inductive member :=
| OfInt (z : Z)
| OfStr (s : string).

Definition str (m : member) : string :=
  match m with
  | OfInt z => Py.str_of_int z
  | OfStr s => s
  end.

(** [list(range(n)) + list(letters)] *)
Definition of_range_and (n : nat) (letters : string) : list member :=
  ((OfInt ∘ Z.of_nat) <$> seq 0 n)
    ++ ((OfStr ∘ Py.chr) <$> list_ascii_of_string letters).

(** ["".join(str(random.choice(chars)) for _ in range(size))], on the draws
    of the generator in their order. *)
Definition join_choices (chars : list member) (size : nat) (draw : nat → nat)
    : Py.result string :=
  choices ← mapM (λ i, random.choice chars (draw i)) (seq 0 size);
  inr (foldr String.append "" (str <$> choices)).
End chars.

(** [moto/apigateway/utils.py] *)
Module apigateway.
Definition create_id (draw : nat → nat) : Py.result string :=
  let size := 10 in
  let chars := chars.of_range_and 10 string_.ascii_lowercase in
  chars.join_choices chars size draw.

Definition to_path (prop : string) : string := "/" ++ prop.
End apigateway.

(** [moto/cloudformation/utils.py] *)
Module cloudformation.
Definition random_suffix (draw : nat → nat) : Py.result string :=
  let size := 12 in
  let chars := chars.of_range_and 10 string_.ascii_uppercase in
  chars.join_choices chars size draw.
End cloudformation.

(** * [moto/applicationautoscaling/utils.py] *)

Module applicationautoscaling.

(** [s.split(c)] for a one-character [c]: the part before the first [c],
    and the parts after it. *)
Fixpoint split_parts (c : ascii) (s : string) : string * list string :=
  match s with
  | EmptyString => ("", [])
  | String d s' =>
      let '(part, parts) := split_parts c s' in
      if Ascii.eqb d c then ("", part :: parts) else (String d part, parts)
  end.

Definition split (c : ascii) (s : string) : list string :=
  let '(part, parts) := split_parts c s in part :: parts.

Section url.
(** [urlparse(url).netloc]: the domain of the url, or the exception that
    [urlparse] raises on a url that it does not accept (a [ValueError], as
    for a bracketed host that is no address). *)
Variable netloc : string → Py.result string.

Definition region_from_applicationautoscaling_url (url : string) : Py.result string :=
  domain ← netloc url;
  if Py.contains "." domain then
    match split "." domain !! 1 with
    | Some region => inr region
    | None => inl Py.IndexError
    end
  else inr "us-east-1".
End url.
End applicationautoscaling.

(** * Properties *)

Local Open Scope list_scope.

(** ** Matching by derivatives is matching *)

Section regex_facts.
Import re.
Implicit Types (r : regex) (s u v : list ascii) (c : ascii).

Lemma lang_nil_nullable r : lang r [] → nullable r = true.
Proof.
  intros H. remember [] as s eqn:Hs. induction H; simpl; try done.
  - apply app_eq_nil in Hs as [-> ->]. rewrite IHlang1, IHlang2; done.
  - rewrite IHlang; done.
  - rewrite IHlang; [|done]. apply orb_true_r.
  - apply app_eq_nil in Hs as [-> ->]. auto.
Qed.

Lemma nullable_lang_nil r : nullable r = true → lang r [].
Proof.
  induction r; simpl; intros Hn; try done.
  - constructor.
  - apply andb_true_iff in Hn as [? ?]. apply (lang_Cat _ _ [] []); auto.
  - apply orb_true_iff in Hn as [?|?]; [apply lang_Alt_l | apply lang_Alt_r]; auto.
  - constructor.
  - apply (lang_Plus _ [] []); [auto | constructor].
Qed.

Lemma lang_Star_cons_inv r c s :
  lang (Star r) (c :: s) →
  ∃ u v, s = u ++ v ∧ lang r (c :: u) ∧ lang (Star r) v.
Proof.
  intros H. remember (Star r) as r' eqn:Hr. remember (c :: s) as w eqn:Hw.
  revert Hr Hw. induction H; intros Hr Hw; try done.
  injection Hr as ->. destruct u as [|d u].
  - simpl in Hw. auto.
  - simpl in Hw. injection Hw as -> <-. eauto.
Qed.

Lemma lang_Cat_inv r1 r2 s :
  lang (Cat r1 r2) s → ∃ u v, s = u ++ v ∧ lang r1 u ∧ lang r2 v.
Proof. inversion 1; subst; eauto. Qed.

Lemma lang_Alt_inv r1 r2 s : lang (Alt r1 r2) s → lang r1 s ∨ lang r2 s.
Proof. inversion 1; subst; eauto. Qed.

Lemma lang_Plus_inv r s :
  lang (Plus r) s → ∃ u v, s = u ++ v ∧ lang r u ∧ lang (Star r) v.
Proof. inversion 1; subst; eauto. Qed.

Lemma lang_cons_app r1 r2 c u v :
  lang r1 (c :: u) → lang r2 v → lang (Cat r1 r2) (c :: u ++ v).
Proof. intros. change (c :: u ++ v) with ((c :: u) ++ v). by constructor. Qed.

Lemma deriv_lang r c s : lang (deriv c r) s ↔ lang r (c :: s).
Proof.
  revert s. induction r as [| |d|items|r1 IH1 r2 IH2|r1 IH1 r2 IH2|r IH|r IH];
    intros s; simpl.
  - split; inversion 1.
  - split; inversion 1.
  - destruct (Ascii.eqb_spec c d) as [->|Hne]; split; inversion 1; subst;
      try done; constructor.
  - destruct (existsb _ _) eqn:He; split; inversion 1; subst; try done.
    + by constructor.
    + constructor.
    + congruence.
  - destruct (nullable r1) eqn:Hn; split.
    + intros [Hc|Hd]%lang_Alt_inv.
      * apply lang_Cat_inv in Hc as (u & v & -> & Hu & Hv).
        apply lang_cons_app; [by apply IH1|done].
      * apply (lang_Cat _ _ [] (c :: s)); [by apply nullable_lang_nil|by apply IH2].
    + intros (u & v & Hs & Hu & Hv)%lang_Cat_inv. destruct u as [|d u]; simpl in Hs.
      * subst v. apply lang_Alt_r. by apply IH2.
      * injection Hs as -> ->. apply lang_Alt_l. constructor; [by apply IH1|done].
    + intros (u & v & -> & Hu & Hv)%lang_Cat_inv.
      apply lang_cons_app; [by apply IH1|done].
    + intros (u & v & Hs & Hu & Hv)%lang_Cat_inv. destruct u as [|d u]; simpl in Hs.
      * apply lang_nil_nullable in Hu. congruence.
      * injection Hs as -> ->. constructor; [by apply IH1|done].
  - split; (intros [?|?]%lang_Alt_inv;
      [apply lang_Alt_l; by apply IH1 | apply lang_Alt_r; by apply IH2]).
  - split.
    + intros (u & v & -> & Hu & Hv)%lang_Cat_inv.
      change (c :: u ++ v) with ((c :: u) ++ v). constructor; [by apply IH|done].
    + intros (u & v & -> & Hu & Hv)%lang_Star_cons_inv.
      constructor; [by apply IH|done].
  - split.
    + intros (u & v & -> & Hu & Hv)%lang_Cat_inv.
      change (c :: u ++ v) with ((c :: u) ++ v). constructor; [by apply IH|done].
    + intros (u & v & Hs & Hu & Hv)%lang_Plus_inv. destruct u as [|d u]; simpl in Hs.
      * subst v. apply lang_Star_cons_inv in Hv as (u & v' & -> & Hu' & Hv').
        constructor; [by apply IH|done].
      * injection Hs as -> ->. constructor; [by apply IH|done].
Qed.

(** [matches_prefix]: some prefix of the input is a word. *)
Lemma matches_prefix_spec r s :
  matches_prefix r s = true ↔ ∃ u v, s = u ++ v ∧ lang r u.
Proof.
  revert r. induction s as [|c s IH]; intros r; simpl.
  - rewrite orb_false_r. split.
    + intros Hn%nullable_lang_nil. by exists [], [].
    + intros (u & v & Hs & Hu). symmetry in Hs. apply app_eq_nil in Hs as [-> ->].
      by apply lang_nil_nullable.
  - rewrite orb_true_iff, IH. split.
    + intros [Hn%nullable_lang_nil|(u & v & -> & Hu%deriv_lang)].
      * by exists [], (c :: s).
      * by exists (c :: u), v.
    + intros (u & v & Hs & Hu). destruct u as [|d u]; simpl in Hs.
      * left. by apply lang_nil_nullable.
      * injection Hs as <- ->. right. exists u, v. split; [done|]. by apply deriv_lang.
Qed.

(** [matches_to_eol]: the input is a word, or a word and a last newline. *)
Lemma matches_to_eol_spec r s :
  matches_to_eol r s = true ↔ lang r s ∨ ∃ u, s = u ++ [newline] ∧ lang r u.
Proof.
  revert r. induction s as [|c s IH]; intros r; simpl.
  - split.
    + intros Hn%nullable_lang_nil. by left.
    + intros [H|(u & Hs & _)]; [by apply lang_nil_nullable|].
      by destruct u.
  - rewrite orb_true_iff, IH, !andb_true_iff, bool_decide_eq_true. split.
    + intros [[[Hn%nullable_lang_nil Hc] ->]|[H%deriv_lang|(u & -> & Hu%deriv_lang)]].
      * apply Ascii.eqb_eq in Hc as ->. right. by exists [].
      * by left.
      * right. by exists (c :: u).
    + intros [H%deriv_lang|(u & Hs & Hu)]; [by right; left|].
      destruct u as [|d u]; simpl in Hs.
      * injection Hs as -> ->. left. split; [split|done];
          [by apply lang_nil_nullable|apply Ascii.eqb_refl].
      * injection Hs as <- ->. right. right. exists u. split; [done|]. by apply deriv_lang.
Qed.

(** The words of [[...]*] are the strings over the set. *)
Lemma lang_Star_Class items s :
  lang (Star (Class items)) s ↔ Forall (λ c, existsb (item_has c) items = true) s.
Proof.
  split.
  - intros H. remember (Star (Class items)) as r eqn:Hr. revert Hr.
    induction H; intros Hr; try done.
    injection Hr as ->. apply Forall_app. split; [|auto].
    inversion H; subst. by constructor.
  - induction 1 as [|c s Hc _ IH]; [constructor|].
    change (c :: s) with ([c] ++ s). constructor; [by constructor|done].
Qed.
End regex_facts.

(** ** The tokenizer *)

Section tokenizer_facts.
Import ExpressionTokenizer.

Lemma digit_class c : existsb (re.item_has c) re.digit = Py.isdigit c.
Proof. unfold re.digit, existsb, re.item_has. by rewrite orb_false_r. Qed.

Lemma digit_alnum c :
  Py.isdigit c = true → existsb (re.item_has c) re.alnum = true.
Proof.
  intros Hc. unfold re.alnum, existsb, re.item_has.
  change (Py.between _ _ c) with (Py.isdigit c) at 3. rewrite Hc.
  by rewrite !orb_true_r.
Qed.

(** [is_numeric] looks at the first character only. *)
Lemma is_numeric_first s :
  is_numeric s = match s with
                 | EmptyString => false
                 | String c _ => Py.isdigit c
                 end.
Proof.
  unfold is_numeric, re.match_. cbn [re.eol re.body].
  destruct s as [|c s]; [done|].
  cbn [list_ascii_of_string re.matches_prefix re.nullable re.deriv orb].
  rewrite digit_class. destruct (Py.isdigit c).
  { by destruct (list_ascii_of_string s). }
  apply not_true_is_false. intros (u & v & _ & Hu)%matches_prefix_spec.
  apply lang_Cat_inv in Hu as (? & ? & _ & Hvoid & _). inversion Hvoid.
Qed.

(** The words of [^[a-zA-Z0-9][a-zA-Z0-9_]*$] without a last newline. *)
Lemma is_expression_attribute_word c rest :
  existsb (re.item_has c) re.alnum = true →
  forallb (λ d, existsb (re.item_has d) re.word) (list_ascii_of_string rest) = true →
  is_expression_attribute (String c rest) = true.
Proof.
  intros Hc Hrest. unfold is_expression_attribute, re.match_.
  cbn [re.eol re.body]. apply matches_to_eol_spec. left.
  cbn [list_ascii_of_string].
  change (c :: ?l) with ([c] ++ l). constructor; [by constructor|].
  apply lang_Star_Class, Forall_forall. intros d Hd.
  apply list_elem_of_In in Hd.
  by apply (proj1 (forallb_forall _ _) Hrest).
Qed.

(** A character of [[a-zA-Z0-9_]] is staged. *)
Lemma word_is_staged c :
  existsb (re.item_has c) re.word = true → is_possible_token_boundary c = false.
Proof.
  destruct c as [[] [] [] [] [] [] [] []]; vm_compute; intros; congruence.
Qed.

Lemma append_String s c rest : (s +:+ Py.chr c) +:+ rest = s +:+ String c rest.
Proof.
  induction s as [|d s IH]; [done|].
  change (String d ((s +:+ Py.chr c) +:+ rest) = String d (s +:+ String c rest)).
  by rewrite IH.
Qed.

Lemma append_empty s : s +:+ "" = s.
Proof.
  induction s as [|d s IH]; [done|].
  change (String d (s +:+ "") = String d s). by rewrite IH.
Qed.

(** The loop of [_make_list] on characters that are all staged. *)
Lemma _make_list_loop_staged self l :
  forallb (λ c, negb (is_possible_token_boundary c)) l = true →
  _make_list_loop self l =
    inr (set_staged_characters self (staged_characters self +:+ string_of_list_ascii l)).
Proof.
  revert self. induction l as [|c l IH]; intros self Hl; simpl.
  - destruct self as [i tl st]. unfold set_staged_characters. simpl.
    by rewrite append_empty.
  - simpl in Hl. apply andb_true_iff in Hl as [Hc Hl].
    unfold _make_list_step. rewrite Hc. simpl. rewrite IH by done.
    unfold set_staged_characters. simpl. by rewrite append_String.
Qed.

Lemma word_chars_staged c rest :
  existsb (re.item_has c) re.word = true →
  forallb (λ d, existsb (re.item_has d) re.word) (list_ascii_of_string rest) = true →
  forallb (λ c, negb (is_possible_token_boundary c))
    (list_ascii_of_string (String c rest)) = true.
Proof.
  intros Hc Hrest. simpl. rewrite (word_is_staged c Hc). simpl.
  apply forallb_forall. intros d Hd.
  rewrite word_is_staged; [done|]. by apply (proj1 (forallb_forall _ _) Hrest).
Qed.

Lemma digit_word c :
  Py.isdigit c = true → existsb (re.item_has c) re.word = true.
Proof.
  intros Hc. unfold re.word. rewrite existsb_app, digit_alnum; done.
Qed.

(** A run of [[a-zA-Z0-9_]] that starts with a digit is one [NUMBER]
    token, whatever follows the digit. *)
Lemma make_list_leading_digit c rest :
  Py.isdigit c = true →
  forallb (λ d, existsb (re.item_has d) re.word) (list_ascii_of_string rest) = true →
  make_list (String c rest) = inr [Token.Token Token.NUMBER (String c rest)].
Proof.
  intros Hc Hrest. unfold make_list, _make_list, __init__.
  cbn [input_expression_str].
  rewrite _make_list_loop_staged by (apply word_chars_staged; [by apply digit_word|done]).
  cbn [staged_characters append mbind Py.result_bind].
  rewrite string_of_list_ascii_of_string.
  unfold process_staged_characters, set_staged_characters.
  cbn [staged_characters input_expression_str token_list String.length].
  change ("" +:+ String c rest) with (String c rest).
  rewrite bool_decide_eq_false_2 by done.
  assert (Py.startswith (String c rest) "#" = false) as ->.
  { cbn [Py.startswith]. destruct (Ascii.eqb_spec "#" c) as [<-|]; [done|].
    by destruct rest. }
  rewrite is_numeric_first, Hc. done.
Qed.
End tokenizer_facts.

(** The tokenizer on some expressions. *)
Example make_list_assignment :
  ExpressionTokenizer.make_list "a = :val" =
    inr [ Token.Token Token.ATTRIBUTE "a"; Token.Token Token.WHITESPACE " ";
          Token.Token (Token.Str "=") "="; Token.Token Token.WHITESPACE " ";
          Token.Token Token.ATTRIBUTE_VALUE ":val" ].
Proof. reflexivity. Qed.

Example make_list_path :
  ExpressionTokenizer.make_list "#name.b" =
    inr [ Token.Token Token.ATTRIBUTE_NAME "#name"; Token.Token (Token.Str ".") ".";
          Token.Token Token.ATTRIBUTE "b" ].
Proof. reflexivity. Qed.

Example make_list_unexpected :
  ExpressionTokenizer.make_list "a!b" = inl (Py.InvalidTokenException "!" "a!").
Proof. reflexivity. Qed.

Example make_list_spaces :
  ExpressionTokenizer.make_list "a   b" =
    inr [ Token.Token Token.ATTRIBUTE "a"; Token.Token Token.WHITESPACE "   ";
          Token.Token Token.ATTRIBUTE "b" ].
Proof. reflexivity. Qed.

Example make_list_empty_name :
  ExpressionTokenizer.make_list "#" = inl (Py.InvalidExpressionAttributeNameKey "#").
Proof. reflexivity. Qed.

(** C3. A staged buffer that starts with a digit is a [NUMBER] token although
    it does not consist of digits only: ["1abc"], which matches the grammar
    of a bare identifier, is tokenized as one [NUMBER] token, not as an
    [ATTRIBUTE] token. *)
Theorem number_token_for_1abc :
  ExpressionTokenizer.make_list "1abc" = inr [Token.Token Token.NUMBER "1abc"]
  ∧ ExpressionTokenizer.is_expression_attribute "1abc" = true
  ∧ forallb Py.isdigit (list_ascii_of_string "1abc") = false.
Proof. by vm_compute. Qed.

(** C5 as amended. A staged buffer that is [#], a digit and then characters
    of [[a-zA-Z0-9_]] passes [is_expression_attribute_name]: tokenizing it
    gives one [ATTRIBUTE_NAME] token with the whole text. *)
Theorem attribute_name_with_leading_digit (c : ascii) (rest : string) :
  Py.isdigit c = true →
  forallb (λ d, existsb (re.item_has d) re.word) (list_ascii_of_string rest) = true →
  ExpressionTokenizer.make_list (String "#" (String c rest)) =
    inr [Token.Token Token.ATTRIBUTE_NAME (String "#" (String c rest))].
Proof.
  intros Hc Hrest. unfold ExpressionTokenizer.make_list,
    ExpressionTokenizer._make_list, ExpressionTokenizer.__init__.
  cbn [ExpressionTokenizer.input_expression_str].
  rewrite _make_list_loop_staged.
  2:{ change (list_ascii_of_string (String "#" (String c rest)))
        with ("#"%char :: list_ascii_of_string (String c rest)).
      cbn [forallb]. apply andb_true_iff. split; [reflexivity|].
      apply word_chars_staged; [by apply digit_word|done]. }
  cbn [ExpressionTokenizer.staged_characters append mbind Py.result_bind].
  rewrite string_of_list_ascii_of_string.
  unfold ExpressionTokenizer.process_staged_characters,
    ExpressionTokenizer.set_staged_characters.
  cbn [ExpressionTokenizer.staged_characters ExpressionTokenizer.input_expression_str
       ExpressionTokenizer.token_list String.length].
  change ("" +:+ String "#" (String c rest)) with (String "#" (String c rest)).
  rewrite bool_decide_eq_false_2 by done.
  unfold ExpressionTokenizer.is_expression_attribute_name.
  cbn [Py.startswith Py.drop Ascii.eqb Bool.eqb andb].
  rewrite is_expression_attribute_word by (by try apply digit_alnum).
  done.
Qed.

Lemma attribute_name_with_leading_digit_witness :
  Py.isdigit "1" = true
  ∧ forallb (λ d, existsb (re.item_has d) re.word) (list_ascii_of_string "abc") = true
  ∧ ExpressionTokenizer.make_list "#1abc" =
      inr [Token.Token Token.ATTRIBUTE_NAME "#1abc"].
Proof.
  split; [reflexivity|]. split; [reflexivity|].
  apply (attribute_name_with_leading_digit "1" "abc"); reflexivity.
Defined.

(** C5 as stated fails: tokenizing ["#1abc"] does not raise
    [InvalidExpressionAttributeNameKey]. *)
Lemma tokenizing_hash_1abc_does_not_fail :
  ¬ ∃ key, ExpressionTokenizer.make_list "#1abc"
           = inl (Py.InvalidExpressionAttributeNameKey key).
Proof. intros [key Hkey]. vm_compute in Hkey. discriminate. Qed.

(** ** The human names of the types *)

Lemma human_type_mapping_table :
  DDBTypeConversion._human_type_mapping =
    list_to_map ((λ '(key, val), (val, Py.replace "_" " " key)) <$> DDBType.constants).
Proof. by vm_compute. Qed.

(** C9 as amended. For the code of each constant of [DDBType],
    [get_human_type] returns the name of the constant with its underscores
    replaced by spaces, in the upper case of the name (["STRING SET"] for the
    code of [STRING_SET]); any other code is returned unchanged. *)
Theorem get_human_type_spec (abbreviated_type : string) :
  (∀ key, (key, abbreviated_type) ∈ DDBType.constants →
     DDBTypeConversion.get_human_type abbreviated_type = Py.replace "_" " " key
     ∧ Py.upper (DDBTypeConversion.get_human_type abbreviated_type)
       = DDBTypeConversion.get_human_type abbreviated_type)
  ∧ (abbreviated_type ∉ DDBType.constants.*2 →
     DDBTypeConversion.get_human_type abbreviated_type = abbreviated_type).
Proof.
  unfold DDBTypeConversion.get_human_type. rewrite human_type_mapping_table. split.
  - intros key Hkey. unfold DDBType.constants in Hkey.
    repeat (apply elem_of_cons in Hkey as [Hkey|Hkey];
            [injection Hkey as -> ->; by vm_compute|]).
    by apply elem_of_nil in Hkey.
  - intros Hnot. rewrite (proj1 (not_elem_of_list_to_map _ _)); [done|].
    by rewrite <- list_fmap_compose.
Qed.

Lemma get_human_type_spec_witness :
  (("STRING_SET", "SS") ∈ DDBType.constants
   ∧ DDBTypeConversion.get_human_type "SS" = "STRING SET")
  ∧ (("XS" ∉ DDBType.constants.*2) ∧ DDBTypeConversion.get_human_type "XS" = "XS").
Proof.
  split.
  - assert (("STRING_SET", "SS") ∈ DDBType.constants) as Hin.
    { apply (bool_decide_unpack _). by vm_compute. }
    split; [exact Hin|]. exact (proj1 (proj1 (get_human_type_spec "SS") _ Hin)).
  - assert ("XS" ∉ DDBType.constants.*2) as Hnot.
    { apply (bool_decide_unpack _). by vm_compute. }
    split; [exact Hnot|]. exact (proj2 (get_human_type_spec "XS") Hnot).
Defined.

(** C9 as stated fails: the human name of [STRING_SET] is not in lower
    case. *)
Lemma human_type_is_not_lower_case :
  DDBTypeConversion.get_human_type DDBType.STRING_SET ≠ "string set".
Proof. by vm_compute. Qed.

(** ** Arithmetic on values: the errors *)

Section arithmetic_errors.
Context `{Py.Float}.
Import DynamoType.

(** C4. [__add__] of two values of different types raises the [TypeError]
    of mismatched operands; of two values of the same type other than [N]
    it raises [IncorrectDataType], where [__sub__] raises a [TypeError]. *)
Theorem arithmetic_error_paths (self other : t) :
  (type self ≠ type other →
     __add__ self other
       = inl (Py.TypeError "Different types of operandi is not allowed.")
     ∧ __sub__ self other
       = inl (Py.TypeError "Different types of operandi is not allowed."))
  ∧ (type self = type other → type self ≠ DDBType.NUMBER →
     __add__ self other = inl Py.IncorrectDataType
     ∧ __sub__ self other = inl (Py.TypeError "Sum only supported for Numbers.")
     ∧ __sub__ self other ≠ inl Py.IncorrectDataType).
Proof.
  split.
  - intros Hne. unfold __add__, __sub__. by rewrite !bool_decide_eq_true_2.
  - intros Heq Hnum. unfold __add__, __sub__, is_number.
    rewrite !(bool_decide_eq_false_2 (type self ≠ type other)) by (by intros []).
    rewrite (bool_decide_eq_false_2 (type self = DDBType.NUMBER)) by done.
    rewrite (bool_decide_eq_true_2 (type self ≠ DDBType.NUMBER)) by done.
    done.
Qed.
End arithmetic_errors.

Lemma arithmetic_error_paths_witness :
  (DynamoType.type (DynamoType.Text DynamoType.N_ "3")
     ≠ DynamoType.type (DynamoType.Text DynamoType.S_ "4")
   ∧ DynamoType.__add__ (H := Py.cpython_float)
       (DynamoType.Text DynamoType.N_ "3") (DynamoType.Text DynamoType.S_ "4")
     = inl (Py.TypeError "Different types of operandi is not allowed."))
  ∧ (DynamoType.type (DynamoType.Text DynamoType.S_ "3")
       = DynamoType.type (DynamoType.Text DynamoType.S_ "4")
     ∧ DynamoType.type (DynamoType.Text DynamoType.S_ "3") ≠ DDBType.NUMBER
     ∧ DynamoType.__add__ (H := Py.cpython_float)
         (DynamoType.Text DynamoType.S_ "3") (DynamoType.Text DynamoType.S_ "4")
       = inl Py.IncorrectDataType
     ∧ DynamoType.__sub__ (H := Py.cpython_float)
         (DynamoType.Text DynamoType.S_ "3") (DynamoType.Text DynamoType.S_ "4")
       = inl (Py.TypeError "Sum only supported for Numbers.")).
Proof.
  split.
  - assert (DynamoType.type (DynamoType.Text DynamoType.N_ "3")
            ≠ DynamoType.type (DynamoType.Text DynamoType.S_ "4")) as Hne by done.
    split; [exact Hne|].
    exact (proj1 (proj1 (arithmetic_error_paths (H := Py.cpython_float) _ _) Hne)).
  - assert (DynamoType.type (DynamoType.Text DynamoType.S_ "3") ≠ DDBType.NUMBER)
      as Hnum by done.
    split; [reflexivity|]. split; [exact Hnum|].
    pose proof (proj2 (arithmetic_error_paths (H := Py.cpython_float)
      (DynamoType.Text DynamoType.S_ "3") (DynamoType.Text DynamoType.S_ "4"))
      eq_refl Hnum) as (Hadd & Hsub & _).
    split; [exact Hadd|exact Hsub].
Defined.

(** ** Indexed mutation *)

Section setitem.
Import DynamoType.

(** C10. [__setitem__] raises [NotImplementedError] exactly for a key that
    is neither an [int] nor a [str]; an [int] key on a value that is not a
    list, and a [str] key on a value that is not a map, change nothing and
    raise nothing. *)
Theorem setitem_key_types (self : t) (key : key) (value : t) :
  (__setitem__ self key value = inl Py.NotImplementedError ↔ key = KOther)
  ∧ (∀ i, key = KInt i → type self ≠ DDBType.LIST →
       __setitem__ self key value = inr self)
  ∧ (∀ s, key = KStr s → type self ≠ DDBType.MAP →
       __setitem__ self key value = inr self).
Proof.
  split; [|split].
  - destruct key as [i|s|]; simpl; [| |done].
    + destruct self as [| | |l|]; try done.
      destruct (i >=? _)%Z; [done|]. unfold Py.list_setitem.
      repeat case_match; done.
    + destruct self; done.
  - intros i -> Hl. by destruct self.
  - intros s -> Hm. by destruct self.
Qed.

End setitem.

Lemma setitem_key_types_witness :
  DynamoType.__setitem__ (DynamoType.Text DynamoType.S_ "a") DynamoType.KOther
      (DynamoType.Flag DynamoType.BOOL_ true)
    = inl Py.NotImplementedError
  ∧ (DynamoType.type (DynamoType.Text DynamoType.S_ "a") ≠ DDBType.LIST
     ∧ DynamoType.__setitem__ (DynamoType.Text DynamoType.S_ "a") (DynamoType.KInt 0)
         (DynamoType.Flag DynamoType.BOOL_ true)
       = inr (DynamoType.Text DynamoType.S_ "a"))
  ∧ (DynamoType.type (DynamoType.List []) ≠ DDBType.MAP
     ∧ DynamoType.__setitem__ (DynamoType.List []) (DynamoType.KStr "k")
         (DynamoType.Flag DynamoType.BOOL_ true)
       = inr (DynamoType.List [])).
Proof.
  split; [|split].
  - exact (proj2 (proj1 (setitem_key_types _ DynamoType.KOther _)) eq_refl).
  - assert (DynamoType.type (DynamoType.Text DynamoType.S_ "a") ≠ DDBType.LIST)
      as Hty by done.
    split; [exact Hty|].
    exact (proj1 (proj2 (setitem_key_types _ _ _)) 0%Z eq_refl Hty).
  - assert (DynamoType.type (DynamoType.List []) ≠ DDBType.MAP) as Hty by done.
    split; [exact Hty|].
    exact (proj2 (proj2 (setitem_key_types _ _ _)) "k" eq_refl Hty).
Defined.



(** ** Integers and their decimal text *)

Section int_text.
Import Decimal.

Lemma int_digits_string_of_uint d acc after_digit :
  Py.int_digits acc after_digit (list_ascii_of_string (NilEmpty.string_of_uint d)) =
    match d with
    | Nil => if after_digit then Some acc else None
    | _ => Some (Py.uint_value acc d)
    end.
Proof.
  revert acc after_digit.
  induction d as [|d IH|d IH|d IH|d IH|d IH|d IH|d IH|d IH|d IH|d IH];
    intros acc after_digit; [done|..];
    cbn [NilEmpty.string_of_uint list_ascii_of_string Py.int_digits];
    change (Py.isdigit _) with true; cbv iota; rewrite IH; by destruct d.
Qed.

Lemma uint_value_pos d acc :
  Py.uint_value (Npos acc) d = Npos (Pos.of_uint_acc d acc).
Proof.
  revert acc. induction d; intros acc; cbn [Py.uint_value Pos.of_uint_acc]; [done|..];
    rewrite <- IHd; f_equal; lia.
Qed.

Lemma uint_value_of_uint d : Py.uint_value 0 d = N.of_uint d.
Proof.
  unfold N.of_uint. induction d; cbn [Py.uint_value Pos.of_uint]; [done|done|..];
    by rewrite <- uint_value_pos.
Qed.

Lemma lstrip_no_space l :
  Forall (λ c, Py.isspace c = false) l → Py.lstrip l = l.
Proof. destruct 1 as [|c l Hc _]; [done|]. cbn [Py.lstrip]. by rewrite Hc. Qed.

Lemma strip_no_space l :
  Forall (λ c, Py.isspace c = false) l → Py.strip l = l.
Proof.
  intros Hl. unfold Py.strip.
  rewrite (lstrip_no_space l Hl), lstrip_no_space by (by apply Forall_reverse).
  apply reverse_involutive.
Qed.

Lemma digits_no_space d :
  Forall (λ c, Py.isspace c = false)
    (list_ascii_of_string (NilEmpty.string_of_uint d)).
Proof.
  induction d; cbn [NilEmpty.string_of_uint list_ascii_of_string];
    by constructor.
Qed.

(** [int] of the digits of a number without a sign. *)
Lemma int_of_digits d :
  d ≠ Nil → Py.int (NilEmpty.string_of_uint d) = inr (Z.of_N (Py.uint_value 0 d)).
Proof.
  intros Hd. unfold Py.int. rewrite strip_no_space by apply digits_no_space.
  pose proof (int_digits_string_of_uint d 0 false) as Hdigits.
  destruct d; [done|..];
    cbn [NilEmpty.string_of_uint list_ascii_of_string] in *;
    cbv iota beta; by rewrite Hdigits.
Qed.

Lemma int_of_minus_digits d :
  d ≠ Nil →
  Py.int (String "-" (NilEmpty.string_of_uint d)) = inr (- Z.of_N (Py.uint_value 0 d))%Z.
Proof.
  intros Hd. unfold Py.int. cbn [list_ascii_of_string].
  rewrite strip_no_space by (constructor; [done|apply digits_no_space]).
  cbv iota beta. rewrite int_digits_string_of_uint. by destruct d.
Qed.

Lemma string_of_uint_nonnil d :
  d ≠ Nil → NilZero.string_of_uint d = NilEmpty.string_of_uint d.
Proof. by destruct d. Qed.

(** [int(str(z)) == z] *)
Lemma int_str_of_int z : Py.int (Py.str_of_int z) = inr z.
Proof.
  unfold Py.str_of_int. destruct z as [|p|p]; [done|..];
    cbn [Z.to_int NilZero.string_of_int];
    pose proof (DecimalPos.Unsigned.to_uint_nonnil p) as Hnil;
    rewrite string_of_uint_nonnil by done.
  - rewrite int_of_digits, uint_value_of_uint by done.
    unfold N.of_uint. by rewrite DecimalPos.Unsigned.of_to.
  - rewrite int_of_minus_digits, uint_value_of_uint by done.
    unfold N.of_uint. by rewrite DecimalPos.Unsigned.of_to.
Qed.

Lemma no_dot_in_digits d : Py.contains "." (NilEmpty.string_of_uint d) = false.
Proof. induction d; cbn [NilEmpty.string_of_uint Py.contains]; done. Qed.

(** The text of an [int] has no decimal point. *)
Lemma no_dot_in_str_of_int z : Py.contains "." (Py.str_of_int z) = false.
Proof.
  unfold Py.str_of_int. destruct z as [|p|p]; [done|..];
    cbn [Z.to_int NilZero.string_of_int];
    pose proof (DecimalPos.Unsigned.to_uint_nonnil p) as Hnil;
    rewrite string_of_uint_nonnil by done;
    cbn [Py.contains]; apply no_dot_in_digits.
Qed.
End int_text.

(** ** Arithmetic on numbers *)

Section number_arithmetic.
Context `{Py.Float}.
Import DynamoType.

Lemma int_raises_ValueError s e : Py.int s = inl e → e = Py.ValueError.
Proof.
  unfold Py.int.
  destruct (match Py.strip _ with [] => _ | _ => _ end) as [negative digits].
  destruct (Py.int_digits _ _ _); [done|]. by intros [= <-].
Qed.

Lemma number_of_int_text s :
  Py.contains "." s = false → Py.number_of_str s = z ← Py.int s; inr (Py.Int z).
Proof. unfold Py.number_of_str. by intros ->. Qed.

End number_arithmetic.

(** C8. A number in exponent notation has no decimal point and is no
    integer literal: [__add__] and [__sub__] read ["1e5"] by [int] and raise
    [ValueError], whatever [float] is, although [float] reads the text, as
    the number 100000.0, and the two operations return a number for the
    same operands written with a decimal point. *)
Theorem arithmetic_on_1e5 :
  (∀ H : Py.Float,
     DynamoType.__add__ (DynamoType.Text DynamoType.N_ "1e5")
       (DynamoType.Text DynamoType.N_ "1") = inl Py.ValueError
     ∧ DynamoType.__sub__ (DynamoType.Text DynamoType.N_ "1e5")
         (DynamoType.Text DynamoType.N_ "1") = inl Py.ValueError)
  ∧ Py.binary64.repr <$> Py.binary64.of_str "1e5" = Some "100000.0"
  ∧ DynamoType.__add__ (H := Py.cpython_float)
      (DynamoType.Text DynamoType.N_ "100000.0") (DynamoType.Text DynamoType.N_ "1")
    = inr (DynamoType.Text DynamoType.N_ "100001.0")
  ∧ DynamoType.__sub__ (H := Py.cpython_float)
      (DynamoType.Text DynamoType.N_ "100000.0") (DynamoType.Text DynamoType.N_ "1")
    = inr (DynamoType.Text DynamoType.N_ "99999.0").
Proof.
  split; [|by vm_compute].
  intros H. unfold DynamoType.__add__, DynamoType.__sub__.
  cbn [DynamoType.type DynamoType.text_code DynamoType.text].
  rewrite !bool_decide_eq_false_2 by (by intros []).
  change (negb (DynamoType.is_number (DynamoType.Text DynamoType.N_ "1e5")))
    with false.
  cbv iota. by rewrite !number_of_int_text by done.
Qed.

(** ** Induction on values *)

Section value_induction.
Import DynamoType.

Lemma rank_member_list l x : x ∈ l → rank x < rank (List l).
Proof.
  intros Hx. cbn [rank]. apply Nat.lt_succ_r.
  induction Hx as [x l|x y l _ IH]; rewrite fmap_cons; simpl; lia.
Qed.

Lemma rank_member_map (m : gmap string t) k x :
  m !! k = Some x → rank x < rank (Map m).
Proof.
  intros Hk. cbn [rank]. apply Nat.lt_succ_r.
  rewrite (map_fold_delete_L _ _ k x m); [lia| |done].
  intros. lia.
Qed.

(** Induction on a value, with the property for the members of a list and
    for the values of a map. *)
Lemma value_ind (P : t → Prop) :
  (∀ ty value, P (Text ty value)) →
  (∀ ty value, P (Flag ty value)) →
  (∀ ty value, P (StrSet ty value)) →
  (∀ value, Forall P value → P (List value)) →
  (∀ value, map_Forall (λ _, P) value → P (Map value)) →
  ∀ self, P self.
Proof.
  intros HText HFlag HSet HList HMap self.
  remember (rank self) as n eqn:Hn. revert self Hn.
  induction n as [n IH] using lt_wf_ind. intros self ->.
  destruct self as [ty v|ty v|ty v|l|m]; [done|done|done|..].
  - apply HList, Forall_forall. intros x Hx.
    by apply (IH (rank x)); [apply rank_member_list|].
  - apply HMap. intros k x Hk.
    by apply (IH (rank x)); [apply (rank_member_map m k)|].
Qed.

(** The constructor on a [DynamoType] builds the value again. *)
Lemma copy_id self : copy self = self.
Proof.
  induction self as [| | |l IH|m IH] using value_ind; cbn [copy]; try done.
  - f_equal. rewrite <- (list_fmap_id l) at 2. by apply Forall_fmap_ext.
  - f_equal. apply map_eq. intros k. rewrite lookup_fmap.
    destruct (m !! k) as [x|] eqn:Hk; [|done]. cbn. f_equal. by apply (IH k).
Qed.

Lemma __init___to_json self : __init__ (to_json self) = self.
Proof.
  destruct self as [| | |l|m]; cbn [to_json __init__]; try done.
  - f_equal. rewrite <- list_fmap_compose.
    transitivity (id <$> l); [|apply list_fmap_id].
    apply list_fmap_ext. intros _ x _. apply copy_id.
  - f_equal. rewrite <- map_fmap_compose.
    transitivity (id <$> m); [|apply map_fmap_id].
    apply map_fmap_ext. intros k x _. apply copy_id.
Qed.

(** The fold of [__eq__] over the keys of the first map. *)
Lemma map_fold_and_true (f : string → t → bool) (m : gmap string t) :
  (∀ k x, m !! k = Some x → f k x = true) →
  map_fold (λ k x acc, acc && f k x) true m = true.
Proof.
  intros Hf. rewrite map_fold_foldr.
  assert (Forall (λ kx, f kx.1 kx.2 = true) (map_to_list m)) as Hall.
  { apply Forall_forall. intros [k x] Hkx. by apply Hf, elem_of_map_to_list. }
  induction Hall as [|[k x] kxs Hkx _ IH]; [done|].
  cbn [foldr uncurry]. cbn in Hkx. by rewrite IH, Hkx.
Qed.

Lemma __eq___refl self : __eq__ self self = true.
Proof.
  induction self as [ty v|ty v|ty v|l IH|m IH] using value_ind; cbn [__eq__];
    rewrite bool_decide_eq_true_2 by done; cbn [andb];
    try by rewrite bool_decide_eq_true_2.
  - induction IH as [|x l Hx _ IHl]; [done|]. by rewrite Hx, IHl.
  - rewrite bool_decide_eq_true_2 by done. cbn [andb].
    apply (map_fold_and_true
             (λ key x, match m !! key with Some y => __eq__ x y | None => false end)).
    intros k x Hk. rewrite Hk. by apply (IH k).
Qed.

Lemma map_fold_and_true_inv (f : string → t → bool) (m : gmap string t) :
  map_fold (λ k x acc, acc && f k x) true m = true →
  ∀ k x, m !! k = Some x → f k x = true.
Proof.
  rewrite map_fold_foldr. intros Hfold k x Hk.
  apply elem_of_map_to_list in Hk. revert Hfold.
  induction (map_to_list m) as [|[k' x'] kxs IH]; [by apply elem_of_nil in Hk|].
  cbn [foldr uncurry]. intros [Hrest Hhd]%andb_true_iff.
  apply elem_of_cons in Hk as [[= -> ->]|Hk]; [done|by apply IH].
Qed.

(** [__eq__] holds between equal values only. *)
Lemma __eq___eq self other : __eq__ self other = true → self = other.
Proof.
  revert other.
  induction self as [ty v|ty v|ty v|l IH|m IH] using value_ind;
    intros [ty' v'|ty' v'|ty' v'|l'|m']; cbn [__eq__ type];
    try (by intros [_ ?]%andb_true_iff);
    intros [Hty%bool_decide_eq_true Hv]%andb_true_iff.
  - apply bool_decide_eq_true in Hv as ->. by destruct ty, ty'.
  - apply bool_decide_eq_true in Hv as ->. by destruct ty, ty'.
  - apply bool_decide_eq_true in Hv as ->. by destruct ty, ty'.
  - f_equal. revert l' Hv. induction IH as [|x l Hx _ IHl]; intros [|y l']; try done.
    intros [Hxy Hl]%andb_true_iff. f_equal; [by apply Hx|by apply IHl].
  - apply andb_true_iff in Hv as [Hsize%bool_decide_eq_true Hfold].
    f_equal. apply map_subseteq_size_eq; [|lia].
    apply map_subseteq_spec. intros k x Hk.
    pose proof (map_fold_and_true_inv _ _ Hfold k x Hk) as Hkx. cbn beta in Hkx.
    destruct (m' !! k) as [y|]; [|done]. f_equal. symmetry. by apply (IH k).
Qed.

(** C2. Constructing a value from [to_json] of a value gives that value
    again, and [__eq__] holds between the two. *)
Theorem to_json_round_trip (self : t) :
  __init__ (to_json self) = self
  ∧ __eq__ (__init__ (to_json self)) self = true
  ∧ __ne__ (__init__ (to_json self)) self = false.
Proof.
  unfold __ne__. rewrite __init___to_json, __eq___refl. done.
Qed.
End value_induction.

(** ** The size of a value *)

Section sizes.
Import DynamoType.

(** [self.type[0]] of a set is the type of its members. *)
Lemma sub_type_first ty : Py.first (set_code ty) = inr (text_code (sub_type ty)).
Proof. by destruct ty. Qed.

Lemma is_number_Text self : is_number self = true ↔ ∃ value, self = Text N_ value.
Proof.
  unfold is_number. rewrite bool_decide_eq_true. split.
  - destruct self as [[]|[]|[]|l|m]; try done. eauto.
  - by intros [value ->].
Qed.

(** The members of a set are sized as [DynamoType({sub_type: v})]. *)
Lemma size_set ty value :
  size (StrSet ty value)
    = sum_list ((λ v, size (__init__ (DText (sub_type ty) v))) <$> value).
Proof. done. Qed.

(** The values of a map are sized as [DynamoType(v)], and the sizes of the
    items are summed. *)
Lemma size_map value :
  size (Map value)
    = sum_list ((λ '(k, v), bytesize k + size (__init__ (Instance v)))
                  <$> map_to_list value).
Proof.
  cbn [size]. rewrite map_fold_foldr.
  induction (map_to_list value) as [|[k v] kvs IH]; [done|].
  cbn [foldr uncurry fmap list_fmap sum_list __init__].
  rewrite copy_id. cbn in IH. rewrite IH. cbn. lia.
Qed.

(** C1. The equations of [size]: the length of the text under [N]; for a
    set the sum of the sizes of its members, each constructed at the type of
    the members, which is the first character of the type of the set ([S]
    for [SS], [N] for [NS], [B] for [BS]), so that the members of a set of
    numbers count by their length and the members of the other sets by
    their bytes; for a list the sum of the sizes of its members; for a map
    the sum over its items of the byte size of the key and the size of the
    value; 1 for a [bool]; the byte size of the text under [S] and [B]. *)
Theorem size_equations :
  (∀ value, size (Text N_ value) = String.length value)
  ∧ (∀ ty value, ∃ tag,
       Py.first (type (StrSet ty value)) = inr (text_code tag)
       ∧ size (StrSet ty value)
         = sum_list ((λ v, size (__init__ (DText tag v))) <$> value))
  ∧ (∀ value,
       size (StrSet SS_ value)
         = sum_list ((λ v, size (__init__ (DText S_ v))) <$> value)
       ∧ size (StrSet SS_ value) = sum_list (bytesize <$> value))
  ∧ (∀ value,
       size (StrSet NS_ value)
         = sum_list ((λ v, size (__init__ (DText N_ v))) <$> value)
       ∧ size (StrSet NS_ value) = sum_list (String.length <$> value))
  ∧ (∀ value,
       size (StrSet BS_ value)
         = sum_list ((λ v, size (__init__ (DText B_ v))) <$> value)
       ∧ size (StrSet BS_ value) = sum_list (bytesize <$> value))
  ∧ size (StrSet NS_ ["1"; "22"; String "233" ""]) = 4
  ∧ size (StrSet SS_ ["1"; "22"; String "233" ""]) = 5
  ∧ (∀ value, size (List value) = sum_list (size <$> value))
  ∧ (∀ value,
       size (Map value)
         = sum_list ((λ '(k, v), bytesize k + size (__init__ (Instance v)))
                       <$> map_to_list value))
  ∧ (∀ ty value, size (Flag ty value) = 1)
  ∧ (∀ value, size (Text S_ value) = bytesize value)
  ∧ (∀ value, size (Text B_ value) = bytesize value)
  ∧ size (__init__ (DText N_ "12345")) = 5
  ∧ size (__init__ (DFlag BOOL_ true)) = 1
  ∧ size (__init__ (DMap {["a" := DText S_ "bb"]})) = bytesize "a" + 2.
Proof.
  split; [done|]. split.
  { intros ty value. exists (sub_type ty). split; [|apply size_set].
    by destruct ty. }
  split; [done|]. split; [done|]. split; [done|]. split; [done|].
  split; [done|]. split; [done|].
  split; [apply size_map|]. repeat split; done.
Qed.
End sizes.

(** ** Projection *)

Section projection.
Import DynamoType.

Lemma lookup_foldl_delete (value : gmap string t) (keys : list string) attr :
  foldl (λ value expr, delete expr value) value keys !! attr
    = if bool_decide (attr ∈ keys) then None else value !! attr.
Proof.
  revert value. induction keys as [|key keys IH]; intros value; [done|].
  cbn [foldl]. rewrite IH. destruct (decide (attr = key)) as [->|Hne].
  - rewrite lookup_delete_eq, (bool_decide_eq_true_2 (key ∈ key :: keys))
      by apply list_elem_of_here.
    by case_bool_decide.
  - rewrite lookup_delete_ne by done.
    rewrite (bool_decide_ext (attr ∈ key :: keys) (attr ∈ keys)); [done|].
    rewrite elem_of_cons. by intuition.
Qed.

Lemma filter_Map value projection_expressions :
  filter (Map value) projection_expressions
    = Map (map_imap (DynamoType.projected projection_expressions) value).
Proof.
  cbn [filter].
  match goal with |- context [map_fold ?F _ _] => set (step := F) end.
  assert (∀ base members,
    let '(current, expressions_to_delete) := map_fold step (base, []) members in
    (∀ attr, current !! attr =
       match members !! attr with
       | Some member =>
           if bool_decide (attr ∈ nested_projections projection_expressions)
           then Some (filter member
                        (relevant_expressions attr projection_expressions))
           else base !! attr
       | None => base !! attr
       end)
    ∧ (∀ attr, (attr ∈ expressions_to_delete) ↔
         is_Some (members !! attr)
         ∧ (attr ∉ projection_expressions)
         ∧ (attr ∉ nested_projections projection_expressions))) as Hloop.
  { intros base members.
    apply (map_fold_weak_ind (λ acc members,
      let '(current, expressions_to_delete) := acc in
      (∀ attr, current !! attr =
         match members !! attr with
         | Some member =>
             if bool_decide (attr ∈ nested_projections projection_expressions)
             then Some (filter member
                          (relevant_expressions attr projection_expressions))
             else base !! attr
         | None => base !! attr
         end)
      ∧ (∀ attr, (attr ∈ expressions_to_delete) ↔
           is_Some (members !! attr)
           ∧ (attr ∉ projection_expressions)
           ∧ (attr ∉ nested_projections projection_expressions)))).
    - split; intros attr.
      + by rewrite lookup_empty.
      + rewrite lookup_empty. split; [by intros ?%elem_of_nil|].
        by intros [[? [=]] _].
    - intros attr member members' [current del] Hfresh [Hcur Hdel]. unfold step.
      destruct (bool_decide (attr ∉ projection_expressions)
                && bool_decide (attr ∉ nested_projections projection_expressions))
        eqn:Hdrop.
      + apply andb_true_iff in Hdrop as [Hpe%bool_decide_eq_true Hnp%bool_decide_eq_true].
        split; intros attr'.
        * rewrite Hcur. destruct (decide (attr' = attr)) as [->|Hne].
          -- rewrite lookup_insert_eq, Hfresh.
             by rewrite (bool_decide_eq_false_2 (attr ∈ _)).
          -- by rewrite lookup_insert_ne.
        * rewrite elem_of_app, Hdel, list_elem_of_singleton.
          destruct (decide (attr' = attr)) as [->|Hne].
          -- rewrite lookup_insert_eq, Hfresh. split; [|by auto].
             intros _. split; [by eexists|done].
          -- rewrite lookup_insert_ne by done. by intuition.
      + assert (attr ∈ projection_expressions
                ∨ attr ∈ nested_projections projection_expressions) as Hkeep.
        { apply andb_false_iff in Hdrop as [Hd|Hd];
            apply bool_decide_eq_false in Hd;
            [left|right]; by apply dec_stable. }
        assert (∀ attr', (attr' ∈ del) ↔
                  is_Some (<[attr:=member]> members' !! attr')
                  ∧ (attr' ∉ projection_expressions)
                  ∧ (attr' ∉ nested_projections projection_expressions)) as Hdel'.
        { intros attr'. rewrite Hdel. destruct (decide (attr' = attr)) as [->|Hne].
          - rewrite lookup_insert_eq, Hfresh. split; [by intros [[? [=]] _]|].
            intros [_ [Hpe Hnp]]. destruct Hkeep as [Hk|Hk]; contradiction.
          - by rewrite lookup_insert_ne. }
        destruct (decide (attr ∈ nested_projections projection_expressions))
          as [Hnested|Hnested].
        * rewrite (bool_decide_eq_true_2 _ Hnested).
          split; [|exact Hdel']. intros attr'.
          destruct (decide (attr' = attr)) as [->|Hne].
          -- by rewrite !lookup_insert_eq, bool_decide_eq_true_2.
          -- by rewrite !lookup_insert_ne, Hcur.
        * rewrite (bool_decide_eq_false_2 _ Hnested).
          split; [|exact Hdel']. intros attr'.
          rewrite Hcur. destruct (decide (attr' = attr)) as [->|Hne].
          -- by rewrite lookup_insert_eq, Hfresh, bool_decide_eq_false_2.
          -- by rewrite lookup_insert_ne. }
  specialize (Hloop value value).
  destruct (map_fold step (value, []) value) as [current del].
  destruct Hloop as [Hcur Hdel]. f_equal. apply map_eq. intros attr.
  rewrite lookup_foldl_delete, map_lookup_imap, Hcur. unfold projected.
  destruct (value !! attr) as [member|] eqn:Hattr; cbn.
  - case_bool_decide as Hin.
    + apply Hdel in Hin as (_ & Hpe & Hnp).
      by rewrite !bool_decide_eq_false_2.
    + case_bool_decide as Hnp; [done|]. case_bool_decide as Hpe; [done|].
      destruct Hin. apply Hdel. rewrite Hattr. eauto.
  - by destruct (bool_decide (attr ∈ del)).
Qed.

(** *** The nested projections and the relevant expressions, by the text of
    the expressions *)

Lemma String_app c s1 s2 : String c s1 +:+ s2 = String c (s1 +:+ s2).
Proof. done. Qed.

Lemma index_app_dot head tail :
  Py.contains "." head = false →
  Py.contains "." (head +:+ "." +:+ tail) = true
  ∧ Py.index "." (head +:+ "." +:+ tail) = inr (String.length head)
  ∧ Py.take (String.length head) (head +:+ "." +:+ tail) = head.
Proof.
  induction head as [|c head IH]; [done|].
  cbn [Py.contains]. intros [Hc Hhead]%orb_false_iff.
  destruct (IH Hhead) as (Hin & Hindex & Htake).
  rewrite String_app. cbn [Py.contains Py.index String.length Py.take].
  rewrite Hc, Hin, Hindex, Htake. done.
Qed.

Lemma index_take_drop expr :
  Py.contains "." expr = true →
  ∃ i, Py.index "." expr = inr i
       ∧ Py.contains "." (Py.take i expr) = false
       ∧ expr = Py.take i expr +:+ "." +:+ Py.drop (S i) expr.
Proof.
  induction expr as [|c expr IH]; [done|].
  cbn [Py.contains Py.index]. destruct (Ascii.eqb_spec c ".") as [->|Hc].
  - intros _. by exists 0.
  - intros Hin. destruct (IH Hin) as (i & Hindex & Hno & Hexpr).
    exists (S i). rewrite Hindex. split; [done|].
    cbn [Py.take Py.drop Py.contains]. rewrite Hno.
    rewrite (proj2 (Ascii.eqb_neq c ".") Hc). split; [done|].
    rewrite String_app. by f_equal.
Qed.

(** A nested projection is the text before the first ["."] of an
    expression. *)
Lemma nested_projections_spec projection_expressions attr :
  attr ∈ nested_projections projection_expressions ↔
  ∃ tail, (attr +:+ "." +:+ tail) ∈ projection_expressions
          ∧ Py.contains "." attr = false.
Proof.
  unfold nested_projections. rewrite list_elem_of_omap. split.
  - intros (expr & Hexpr & Hattr).
    destruct (Py.contains "." expr) eqn:Hin; [|done].
    destruct (index_take_drop expr Hin) as (i & Hindex & Hno & Hsplit).
    rewrite Hindex in Hattr. injection Hattr as <-.
    exists (Py.drop (S i) expr). by rewrite <- Hsplit.
  - intros (tail & Hexpr & Hno). exists (attr +:+ "." +:+ tail).
    split; [done|]. destruct (index_app_dot attr tail Hno) as (-> & -> & ->). done.
Qed.

Lemma startswith_app prefix s : Py.startswith (prefix +:+ s) prefix = true.
Proof.
  induction prefix as [|c prefix IH]; [by destruct s|].
  rewrite String_app. cbn [Py.startswith]. by rewrite Ascii.eqb_refl, IH.
Qed.

Lemma drop_app prefix s : Py.drop (String.length prefix) (prefix +:+ s) = s.
Proof.
  induction prefix as [|c prefix IH]; [by destruct s|].
  rewrite String_app. by cbn [String.length Py.drop].
Qed.

Lemma startswith_drop s prefix :
  Py.startswith s prefix = true → s = prefix +:+ Py.drop (String.length prefix) s.
Proof.
  revert s. induction prefix as [|c prefix IH]; intros s.
  - by destruct s.
  - destruct s as [|d s]; [done|]. cbn [Py.startswith].
    intros [->%Ascii.eqb_eq Hs]%andb_true_iff.
    rewrite String_app. cbn [String.length Py.drop]. f_equal. by apply IH.
Qed.

(** A relevant expression of [attr] is what follows [attr] and ["."] in an
    expression. *)
Lemma relevant_expressions_spec projection_expressions attr tail :
  tail ∈ relevant_expressions attr projection_expressions ↔
  (attr +:+ "." +:+ tail) ∈ projection_expressions.
Proof.
  unfold relevant_expressions. rewrite list_elem_of_omap.
  assert (∀ s, attr +:+ "." +:+ s = (attr +:+ ".") +:+ s) as Hassoc.
  { intros s. induction attr as [|c attr IH]; [done|].
    rewrite !String_app. by f_equal. }
  split.
  - intros (expr & Hexpr & Htail).
    destruct (Py.startswith expr (attr +:+ ".")) eqn:Hstart; [|done].
    injection Htail as <-. by rewrite Hassoc, <- startswith_drop.
  - intros Hexpr. exists (attr +:+ "." +:+ tail). split; [done|].
    by rewrite Hassoc, startswith_app, drop_app.
Qed.

(** C6. [filter] on a map removes the keys that are neither in the
    expressions nor the text before the first ["."] of an expression,
    filters the member under such a text by the relevant expressions of the
    key (the texts after the key and ["."]), and leaves the other members as
    they are. *)
Theorem filter_projection (value : gmap string t) (projection_expressions : list string) :
  ∃ value',
    filter (Map value) projection_expressions = Map value'
    ∧ (∀ attr, value' !! attr = value !! attr ≫= DynamoType.projected projection_expressions attr)
    ∧ (∀ attr,
         is_Some (value' !! attr) ↔
         is_Some (value !! attr)
         ∧ (attr ∈ projection_expressions
            ∨ ∃ tail, (attr +:+ "." +:+ tail) ∈ projection_expressions
                      ∧ Py.contains "." attr = false))
    ∧ (∀ attr member,
         value !! attr = Some member →
         (∃ tail, (attr +:+ "." +:+ tail) ∈ projection_expressions
                  ∧ Py.contains "." attr = false) →
         value' !! attr
           = Some (filter member (relevant_expressions attr projection_expressions))
         ∧ ∀ tail, tail ∈ relevant_expressions attr projection_expressions ↔
                   (attr +:+ "." +:+ tail) ∈ projection_expressions)
    ∧ (∀ attr member,
         value !! attr = Some member →
         attr ∈ projection_expressions →
         (¬ ∃ tail, (attr +:+ "." +:+ tail) ∈ projection_expressions
                    ∧ Py.contains "." attr = false) →
         value' !! attr = Some member).
Proof.
  exists (map_imap (DynamoType.projected projection_expressions) value).
  split; [apply filter_Map|]. split; [intros attr; apply map_lookup_imap|].
  split; [|split].
  - intros attr. rewrite map_lookup_imap, <- nested_projections_spec.
    unfold projected. destruct (value !! attr) as [member|]; cbn.
    + split.
      * intros Hsome. split; [by eexists|].
        case_bool_decide; [by right|]. case_bool_decide; [by left|].
        by destruct Hsome.
      * intros [_ [Hpe|Hnp]].
        -- case_bool_decide; [by eexists|].
           rewrite bool_decide_eq_true_2 by done. by eexists.
        -- rewrite bool_decide_eq_true_2 by done. by eexists.
    + split; [by intros [? [=]]|by intros [[? [=]] _]].
  - intros attr member Hattr Hnested%nested_projections_spec.
    split; [|intros tail; apply relevant_expressions_spec].
    rewrite map_lookup_imap, Hattr. cbn. unfold projected.
    by rewrite bool_decide_eq_true_2.
  - intros attr member Hattr Hpe Hnested.
    rewrite <- nested_projections_spec in Hnested.
    rewrite map_lookup_imap, Hattr. cbn. unfold projected.
    by rewrite bool_decide_eq_false_2, bool_decide_eq_true_2.
Qed.
End projection.

Lemma filter_projection_witness :
  ∃ value',
    DynamoType.filter
      (DynamoType.Map
         {[ "a" := DynamoType.Text DynamoType.S_ "1";
            "b" := DynamoType.Map
                     {[ "c" := DynamoType.Text DynamoType.S_ "2";
                        "d" := DynamoType.Text DynamoType.S_ "3" ]} ]})
      ["a"; "b.c"]
    = DynamoType.Map value'
    ∧ value' !! "a" = Some (DynamoType.Text DynamoType.S_ "1")
    ∧ value' !! "b"
      = Some (DynamoType.Map {[ "c" := DynamoType.Text DynamoType.S_ "2" ]})
    ∧ (∀ attr, is_Some (value' !! attr) → attr = "a" ∨ attr = "b").
Proof.
  destruct (filter_projection
    {[ "a" := DynamoType.Text DynamoType.S_ "1";
       "b" := DynamoType.Map
                {[ "c" := DynamoType.Text DynamoType.S_ "2";
                   "d" := DynamoType.Text DynamoType.S_ "3" ]} ]}
    ["a"; "b.c"]) as (value' & Hfilter & Hlookup & Hkeys & _).
  exists value'. split; [exact Hfilter|].
  split; [rewrite Hlookup; by vm_compute|].
  split; [rewrite Hlookup; by vm_compute|].
  intros attr Hsome. apply (proj1 (Hkeys attr)) in Hsome as [[member Hattr] _].
  apply lookup_insert_Some in Hattr as [[<- _]|[_ Hattr]]; [by left|].
  apply lookup_singleton_Some in Hattr as [<- _]. by right.
Defined.

(** ** The loop of the tokenizer *)

Section tokenizer_loop.
Import ExpressionTokenizer.

Lemma Token_init_placeholder ty value :
  ty ∈ Token.PLACEHOLDER_NAMES.*1 →
  Token.__init__ ty value = inr (Token.Token ty value).
Proof.
  intros Hty. unfold Token.__init__.
  by rewrite (bool_decide_eq_true_2 (ty ∈ Token.PLACEHOLDER_NAMES.*1)), orb_true_r.
Qed.

Lemma Token_init_special character value :
  character ∈ Token.SPECIAL_CHARACTERS →
  Token.__init__ (Token.Str character) value
    = inr (Token.Token (Token.Str character) value).
Proof.
  intros Hc. unfold Token.__init__.
  rewrite (bool_decide_eq_true_2 (Token.Str character ∈ _)); [done|].
  by apply list_elem_of_fmap_2.
Qed.

Lemma add_token_from_stage_placeholder self ty :
  ty ∈ Token.PLACEHOLDER_NAMES.*1 →
  add_token_from_stage self ty = inr (staged_as self ty).
Proof.
  intros Hty. unfold add_token_from_stage, add_token.
  by rewrite Token_init_placeholder.
Qed.

Ltac classify :=
  unfold classified; cbn [Token.type Token.value];
  unfold Token.ATTRIBUTE, Token.ATTRIBUTE_NAME, Token.ATTRIBUTE_VALUE,
    Token.WHITESPACE, Token.NUMBER;
  cbv iota beta;
  repeat first [ rewrite (bool_decide_eq_true_2 (Token.Int _ = Token.Int _)) by done
               | rewrite (bool_decide_eq_false_2 (Token.Int _ = Token.Int _)) by done ];
  cbv iota.

(** [process_staged_characters] when it returns: nothing was staged, or the
    staged buffer has become a token that is classified. *)
Lemma process_staged_characters_inr self self' :
  process_staged_characters self = inr self' →
  (staged_characters self = "" ∧ self' = self)
  ∨ (staged_characters self ≠ ""
     ∧ ∃ ty, self' = staged_as self ty
             ∧ ty ≠ Token.WHITESPACE
             ∧ classified (Token.Token ty (staged_characters self)) = true).
Proof.
  unfold process_staged_characters.
  case_bool_decide as Hlen.
  { intros [= <-]. left. split; [|done]. by destruct (staged_characters self). }
  assert (staged_characters self ≠ "") as Hne by (by intros Heq; rewrite Heq in Hlen).
  destruct (Py.startswith _ "#") eqn:Hhash.
  { destruct (is_expression_attribute_name _) eqn:Hname; [|done].
    rewrite add_token_from_stage_placeholder
      by (apply (bool_decide_unpack _); by vm_compute).
    intros [= <-]. right. split; [done|]. exists Token.ATTRIBUTE_NAME.
    split; [done|]. split; [done|]. by classify. }
  destruct (is_numeric _) eqn:Hnum.
  { rewrite add_token_from_stage_placeholder
      by (apply (bool_decide_unpack _); by vm_compute).
    intros [= <-]. right. split; [done|]. exists Token.NUMBER.
    split; [done|]. split; [done|]. classify. by rewrite Hhash, Hnum. }
  destruct (is_expression_attribute _) eqn:Hattr.
  { rewrite add_token_from_stage_placeholder
      by (apply (bool_decide_unpack _); by vm_compute).
    intros [= <-]. right. split; [done|]. exists Token.ATTRIBUTE.
    split; [done|]. split; [done|]. classify.
    by rewrite Hhash, Hnum, Hattr. }
  destruct (is_expression_attribute_value _) eqn:Hvalue.
  { rewrite add_token_from_stage_placeholder
      by (apply (bool_decide_unpack _); by vm_compute).
    intros [= <-]. right. split; [done|]. exists Token.ATTRIBUTE_VALUE.
    split; [done|]. split; [done|]. classify.
    by rewrite Hhash, Hnum, Hattr, Hvalue. }
  unfold raise_unexpected_token.
  destruct (staged_characters self); [done|]. by cbn.
Qed.

(** [process_staged_characters] when it raises: the staged buffer starts
    with ["#"] and is not an attribute name, or it passes none of the tests
    and its first character is the unexpected token. *)
Lemma process_staged_characters_inl self e :
  process_staged_characters self = inl e →
  (e = Py.InvalidExpressionAttributeNameKey (staged_characters self)
   ∧ Py.startswith (staged_characters self) "#" = true
   ∧ is_expression_attribute_name (staged_characters self) = false)
  ∨ (∃ c rest near,
       staged_characters self = String c rest
       ∧ e = Py.InvalidTokenException (Py.chr c) (near +:+ String c rest)).
Proof.
  unfold process_staged_characters.
  case_bool_decide as Hlen; [done|].
  destruct (Py.startswith _ "#") eqn:Hhash.
  { destruct (is_expression_attribute_name _) eqn:Hname.
    - rewrite add_token_from_stage_placeholder
        by (apply (bool_decide_unpack _); by vm_compute). done.
    - intros [= <-]. by left. }
  destruct (is_numeric (staged_characters self));
    [rewrite add_token_from_stage_placeholder
       by (apply (bool_decide_unpack _); by vm_compute); done|].
  destruct (is_expression_attribute (staged_characters self));
    [rewrite add_token_from_stage_placeholder
       by (apply (bool_decide_unpack _); by vm_compute); done|].
  destruct (is_expression_attribute_value (staged_characters self));
    [rewrite add_token_from_stage_placeholder
       by (apply (bool_decide_unpack _); by vm_compute); done|].
  unfold raise_unexpected_token.
  destruct (staged_characters self) as [|c rest]; [done|].
  cbn [Py.first mbind Py.result_bind]. intros [= <-]. right. by eexists _, _, _.
Qed.

Lemma last_snoc_inv {A} (l : list A) x :
  list.last l = Some x → ∃ init, l = init ++ [x].
Proof.
  intros Hlast. destruct l as [|y l _] using rev_ind; [done|].
  rewrite last_snoc in Hlast. injection Hlast as ->. by exists l.
Qed.

(** One turn of the loop when it returns. *)
Lemma _make_list_step_inr self c self' :
  _make_list_step self c = inr self' →
  (is_possible_token_boundary c = false
   ∧ self' = set_staged_characters self (staged_characters self +:+ Py.chr c))
  ∨ (is_possible_token_boundary c = true
     ∧ ∃ self1,
         process_staged_characters self = inr self1
         ∧ ((Py.chr c = Token.SPACE
             ∧ ∃ init last,
                 token_list self1 = init ++ [last]
                 ∧ Token.type last = Token.WHITESPACE
                 ∧ self' = set_token_list self1
                             (init ++ [Token.Token Token.WHITESPACE
                                         (Token.value last +:+ Py.chr c)]))
            ∨ (Py.chr c = Token.SPACE
               ∧ (∀ last, list.last (token_list self1) = Some last →
                          Token.type last ≠ Token.WHITESPACE)
               ∧ self' = set_token_list self1
                           (token_list self1
                              ++ [Token.Token Token.WHITESPACE (Py.chr c)]))
            ∨ (Py.chr c ≠ Token.SPACE
               ∧ Py.chr c ∈ Token.SPECIAL_CHARACTERS
               ∧ self' = set_token_list self1
                           (token_list self1
                              ++ [Token.Token (Token.Str (Py.chr c)) (Py.chr c)])))).
Proof.
  unfold _make_list_step.
  destruct (is_possible_token_boundary c) eqn:Hboundary; cbn [negb].
  2:{ intros [= <-]. by left. }
  destruct (process_staged_characters self) as [e|self1] eqn:Hprocess; [done|].
  cbn [mbind Py.result_bind]. intros Hstep. right. split; [done|].
  exists self1. split; [done|].
  case_bool_decide as Hspace.
  - destruct (list.last (token_list self1)) as [last|] eqn:Hlast.
    + case_bool_decide as Hws.
      * injection Hstep as <-. left. split; [done|].
        destruct (last_snoc_inv _ _ Hlast) as [init Hinit].
        exists init, last. split; [done|]. split; [done|].
        f_equal. rewrite Hinit, length_app, Hws. cbn [length].
        replace (pred (length init + 1)) with (length init + 0) by lia.
        by rewrite insert_app_r.
      * unfold add_token in Hstep.
        rewrite Token_init_placeholder in Hstep
          by (apply (bool_decide_unpack _); by vm_compute).
        injection Hstep as <-. right. left. split; [done|]. split; [|done].
        by intros ? [= <-].
    + unfold add_token in Hstep.
      rewrite Token_init_placeholder in Hstep
        by (apply (bool_decide_unpack _); by vm_compute).
      injection Hstep as <-. right. left. split; [done|]. split; [|done]. done.
  - case_bool_decide as Hspecial.
    + unfold add_token in Hstep. rewrite Token_init_special in Hstep by done.
      injection Hstep as <-. right. right. done.
    + unfold is_possible_token_boundary in Hboundary.
      rewrite (bool_decide_eq_false_2 _ Hspecial) in Hboundary.
      cbn [orb] in Hboundary. rewrite Hboundary in Hstep. cbn [negb] in Hstep.
      unfold raise_unexpected_token, set_staged_characters in Hstep.
      cbn [staged_characters] in Hstep.
      destruct (staged_characters self1); done.
Qed.

(** One turn of the loop when it raises: the staged buffer is refused, or
    the character is the unexpected token. *)
Lemma _make_list_step_inl self c e :
  _make_list_step self c = inl e →
  process_staged_characters self = inl e
  ∨ (∃ self1 near,
       process_staged_characters self = inr self1
       ∧ e = Py.InvalidTokenException (Py.chr c)
               (near +:+ staged_characters self1 +:+ Py.chr c)).
Proof.
  unfold _make_list_step.
  destruct (is_possible_token_boundary c) eqn:Hboundary; cbn [negb]; [|done].
  destruct (process_staged_characters self) as [e'|self1] eqn:Hprocess.
  { intros [= <-]. by left. }
  cbn [mbind Py.result_bind]. intros Hstep. right.
  assert (staged_characters self1 = "") as Hstaged.
  { apply process_staged_characters_inr in Hprocess as [[? ->]|(_ & ty & -> & _)]; done. }
  case_bool_decide as Hspace.
  - destruct (list.last (token_list self1)) as [last|] eqn:Hlast.
    + case_bool_decide as Hws; [done|]. unfold add_token in Hstep.
      by rewrite Token_init_placeholder in Hstep
        by (apply (bool_decide_unpack _); by vm_compute).
    + unfold add_token in Hstep.
      by rewrite Token_init_placeholder in Hstep
        by (apply (bool_decide_unpack _); by vm_compute).
  - case_bool_decide as Hspecial.
    + unfold add_token in Hstep. by rewrite Token_init_special in Hstep by done.
    + unfold is_possible_token_boundary in Hboundary.
      rewrite (bool_decide_eq_false_2 _ Hspecial) in Hboundary.
      cbn [orb] in Hboundary. rewrite Hboundary in Hstep. cbn [negb] in Hstep.
      unfold raise_unexpected_token, set_staged_characters in Hstep.
      cbn [staged_characters token_list] in Hstep. rewrite Hstaged in Hstep.
      cbn [Py.first mbind Py.result_bind] in Hstep.
      injection Hstep as <-. eexists self1, _. split; [done|].
      rewrite Hstaged. reflexivity.
Qed.

(** *** What the loop keeps *)

Lemma append_assoc (a b c : string) : (a +:+ b) +:+ c = a +:+ (b +:+ c).
Proof.
  induction a as [|d a IH]; [done|].
  change (String d ((a +:+ b) +:+ c) = String d (a +:+ (b +:+ c))). by rewrite IH.
Qed.

Lemma spelled_app tokens1 tokens2 :
  spelled (tokens1 ++ tokens2) = spelled tokens1 +:+ spelled tokens2.
Proof.
  induction tokens1 as [|token tokens1 IH]; [done|].
  cbn [app spelled foldr]. fold (spelled (tokens1 ++ tokens2)). fold (spelled tokens1).
  by rewrite IH, append_assoc.
Qed.

Lemma whitespace_merged_cons a b tokens :
  whitespace_merged (a :: b :: tokens)
    = negb (bool_decide (Token.type a = Token.WHITESPACE)
            && bool_decide (Token.type b = Token.WHITESPACE))
      && whitespace_merged (b :: tokens).
Proof. done. Qed.

Lemma whitespace_merged_snoc tokens token :
  whitespace_merged (tokens ++ [token])
    = whitespace_merged tokens
      && match list.last tokens with
         | Some last =>
             negb (bool_decide (Token.type last = Token.WHITESPACE)
                   && bool_decide (Token.type token = Token.WHITESPACE))
         | None => true
         end.
Proof.
  induction tokens as [|a tokens IH]; [done|].
  destruct tokens as [|b tokens].
  { change ([a] ++ [token]) with [a; token].
    rewrite whitespace_merged_cons. cbn. by rewrite andb_true_r. }
  change ((a :: b :: tokens) ++ [token]) with (a :: b :: (tokens ++ [token])).
  rewrite !whitespace_merged_cons.
  change (b :: (tokens ++ [token])) with ((b :: tokens) ++ [token]).
  rewrite IH. change (list.last (a :: b :: tokens)) with (list.last (b :: tokens)).
  by rewrite andb_assoc.
Qed.

Lemma process_staged_characters_keeps self self' :
  process_staged_characters self = inr self' →
  tokens_kept self →
  tokens_kept self' ∧ staged_characters self' = "" ∧ read self' = read self.
Proof.
  intros [[Hstaged ->]|(_ & ty & -> & Hty & Hclassified)]%process_staged_characters_inr
    [Hcls Hws].
  - done.
  - unfold tokens_kept, read, staged_as. cbn [token_list staged_characters].
    rewrite forallb_app, Hcls, whitespace_merged_snoc, Hws, spelled_app.
    cbn [forallb spelled foldr Token.type Token.value]. rewrite Hclassified.
    rewrite (bool_decide_eq_false_2 (ty = Token.WHITESPACE)) by done.
    split; [|by rewrite !append_empty].
    split; [done|]. destruct (list.last _); [|done]. by rewrite andb_false_r.
Qed.

Lemma _make_list_step_keeps self c self' :
  _make_list_step self c = inr self' →
  tokens_kept self →
  tokens_kept self' ∧ read self' = read self +:+ Py.chr c.
Proof.
  intros Hstep Hkept.
  apply _make_list_step_inr in Hstep as [[_ ->]|(_ & self1 & Hprocess & Hcases)].
  { split; [done|]. unfold read, set_staged_characters.
    cbn [token_list staged_characters]. by rewrite append_assoc. }
  destruct (process_staged_characters_keeps _ _ Hprocess Hkept)
    as ([Hcls Hws] & Hstaged & <-).
  unfold read, tokens_kept. rewrite Hstaged, append_empty.
  destruct Hcases as [(Hspace & init & last & Hinit & Hlast & ->)
                     |[(Hspace & Hlast & ->)|(Hspace & Hspecial & ->)]];
    unfold set_token_list; cbn [token_list staged_characters];
    rewrite Hstaged, append_empty.
  - rewrite Hinit in Hcls, Hws |- *.
    rewrite forallb_app in Hcls. apply andb_true_iff in Hcls as [Hcinit Hclast].
    cbn [forallb] in Hclast. rewrite andb_true_r in Hclast.
    rewrite whitespace_merged_snoc in Hws |- *.
    rewrite forallb_app, Hcinit, !spelled_app. cbn [forallb spelled foldr Token.type].
    rewrite Hlast in Hws. rewrite Hws, !append_empty, append_assoc.
    split; [|done]. split; [|done]. rewrite andb_true_r.
    revert Hclast. unfold classified. cbn [Token.type Token.value]. rewrite Hlast.
    unfold Token.WHITESPACE, Token.ATTRIBUTE_NAME, Token.NUMBER, Token.ATTRIBUTE,
      Token.ATTRIBUTE_VALUE.
    repeat first [ rewrite (bool_decide_eq_true_2 (Token.Int _ = Token.Int _)) by done
                 | rewrite (bool_decide_eq_false_2 (Token.Int _ = Token.Int _)) by done ].
    cbv iota. intros [Hne Hspaces]%andb_true_iff.
    apply (proj2 (andb_true_iff _ _)). split.
    + by destruct (Token.value last).
    + assert (∀ a b, list_ascii_of_string (a +:+ b)
                     = list_ascii_of_string a ++ list_ascii_of_string b) as Happ.
      { intros a b. induction a as [|d a IH]; [done|].
        change (d :: list_ascii_of_string (a +:+ b)
                = d :: (list_ascii_of_string a ++ list_ascii_of_string b)).
        by rewrite IH. }
      rewrite Happ, forallb_app, Hspaces. cbn.
      rewrite (bool_decide_eq_true_2 _ Hspace). by destruct (Token.value last).
  - rewrite forallb_app, Hcls, whitespace_merged_snoc, Hws, spelled_app.
    cbn [forallb spelled foldr Token.value Token.type].
    rewrite append_empty. split; [|done]. split.
    + rewrite Hspace. done.
    + destruct (list.last (token_list self1)) as [last|] eqn:Hl; [|done].
      by rewrite (bool_decide_eq_false_2 _ (Hlast last eq_refl)).
  - rewrite forallb_app, Hcls, whitespace_merged_snoc, Hws, spelled_app.
    cbn [forallb spelled foldr Token.value Token.type].
    rewrite append_empty. split; [|done]. split.
    + unfold classified. cbn [Token.type Token.value].
      rewrite !bool_decide_eq_true_2 by done.
      by rewrite (bool_decide_eq_false_2 (Py.chr c = Token.SPACE)).
    + rewrite (bool_decide_eq_false_2 (Token.Str _ = Token.WHITESPACE)) by done.
      destruct (list.last _); [|done]. by rewrite andb_false_r.
Qed.

Lemma _make_list_loop_keeps characters self self' :
  _make_list_loop self characters = inr self' →
  tokens_kept self →
  tokens_kept self' ∧ read self' = read self +:+ string_of_list_ascii characters.
Proof.
  revert self. induction characters as [|c characters IH]; intros self.
  { intros [= <-] Hkept. by rewrite append_empty. }
  cbn [_make_list_loop].
  destruct (_make_list_step self c) as [e|self1] eqn:Hstep; [done|].
  cbn [mbind Py.result_bind]. intros Hloop Hkept.
  destruct (_make_list_step_keeps _ _ _ Hstep Hkept) as [Hkept1 Hread1].
  destruct (IH _ Hloop Hkept1) as [Hkept' Hread'].
  split; [done|]. rewrite Hread', Hread1, append_assoc. done.
Qed.

(** A tokenization that returns. *)
Lemma make_list_inr s tokens :
  make_list s = inr tokens →
  spelled tokens = s ∧ forallb classified tokens = true ∧ whitespace_merged tokens = true.
Proof.
  unfold make_list, _make_list, __init__. cbn [input_expression_str].
  destruct (_make_list_loop _ _) as [e|self1] eqn:Hloop; [done|].
  cbn [mbind Py.result_bind].
  destruct (process_staged_characters self1) as [e|self2] eqn:Hprocess; [done|].
  cbn [mbind Py.result_bind]. intros [= <-].
  apply _make_list_loop_keeps in Hloop as [Hkept1 Hread1]; [|done].
  apply process_staged_characters_keeps in Hprocess as ([Hcls Hws] & Hstaged & Hread2);
    [|done].
  split; [|done]. unfold read in Hread2, Hread1. cbn in Hread1.
  rewrite Hstaged, append_empty, Hread1 in Hread2.
  by rewrite Hread2, string_of_list_ascii_of_string.
Qed.

(** The values of the tokens of an expression, one after the other, are the
    expression: the tokenizer drops and adds no character. *)
Theorem make_list_spells_expression (input_expression_str : string) tokens :
  make_list input_expression_str = inr tokens →
  spelled tokens = input_expression_str.
Proof. intros Hmake. by apply make_list_inr in Hmake as (? & _ & _). Qed.

(** Each token of an expression is classified: an [ATTRIBUTE_NAME] passes
    [is_expression_attribute_name], a [NUMBER] passes [is_numeric], an
    [ATTRIBUTE] passes [is_expression_attribute] and not [is_numeric] (it
    does not start with a digit), an [ATTRIBUTE_VALUE] passes
    [is_expression_attribute_value], a [WHITESPACE] is one space or more, and
    a token whose type is a character is that character, a special one that
    is not the space. *)
Theorem make_list_classified (input_expression_str : string) tokens :
  make_list input_expression_str = inr tokens →
  forallb classified tokens = true.
Proof. intros Hmake. by apply make_list_inr in Hmake as (_ & ? & _). Qed.

(** Spaces that follow one another are one token: no [WHITESPACE] token
    comes directly after another. *)
Theorem make_list_merges_whitespace (input_expression_str : string) tokens :
  make_list input_expression_str = inr tokens →
  whitespace_merged tokens = true.
Proof. intros Hmake. by apply make_list_inr in Hmake as (_ & _ & ?). Qed.

Lemma _make_list_loop_inl characters self e :
  _make_list_loop self characters = inl e →
  tokens_kept self →
  ∃ self1 c after,
    _make_list_step self1 c = inl e
    ∧ read self +:+ string_of_list_ascii characters = read self1 +:+ String c after.
Proof.
  revert self. induction characters as [|c characters IH]; intros self; [done|].
  cbn [_make_list_loop].
  destruct (_make_list_step self c) as [e1|self1] eqn:Hstep.
  { intros [= ->] _. by exists self, c, (string_of_list_ascii characters). }
  cbn [mbind Py.result_bind]. intros Hloop Hkept.
  destruct (_make_list_step_keeps _ _ _ Hstep Hkept) as [Hkept1 Hread1].
  destruct (IH _ Hloop Hkept1) as (self2 & c2 & after & Hstep2 & Hread2).
  exists self2, c2, after. split; [done|].
  rewrite <- Hread2, Hread1, append_assoc. done.
Qed.

(** What a failing [process_staged_characters] raises, and where the text
    read so far has it. *)
Lemma process_staged_characters_raises self e :
  process_staged_characters self = inl e →
  (∃ key before,
     e = Py.InvalidExpressionAttributeNameKey key
     ∧ Py.startswith key "#" = true
     ∧ is_expression_attribute_name key = false
     ∧ read self = before +:+ key)
  ∨ (∃ c near before after,
       e = Py.InvalidTokenException (Py.chr c) near
       ∧ read self = before +:+ String c after).
Proof.
  intros [(-> & Hhash & Hname)|(c & rest & near & Hstaged & ->)]%process_staged_characters_inl.
  - left. by exists (staged_characters self), (spelled (token_list self)).
  - right. exists c, (near +:+ String c rest), (spelled (token_list self)), rest.
    split; [done|]. unfold read. by rewrite Hstaged.
Qed.

(** The only exceptions of the tokenizer are [InvalidTokenException], with
    one character of the expression as its token, and
    [InvalidExpressionAttributeNameKey], with a key that stands in the
    expression, starts with [#] and is no attribute name.  The assertion of
    [Token.__init__], the [NotImplementedError] of the loop and the
    [IndexError] of an empty staged buffer are never raised. *)
Theorem make_list_raises (input_expression_str : string) e :
  make_list input_expression_str = inl e →
  (∃ key before after,
     e = Py.InvalidExpressionAttributeNameKey key
     ∧ Py.startswith key "#" = true
     ∧ is_expression_attribute_name key = false
     ∧ input_expression_str = before +:+ key +:+ after)
  ∨ (∃ c near before after,
       e = Py.InvalidTokenException (Py.chr c) near
       ∧ input_expression_str = before +:+ String c after).
Proof.
  unfold make_list, _make_list, __init__.
  cbn [ExpressionTokenizer.input_expression_str].
  pose proof (string_of_list_ascii_of_string input_expression_str) as Htext.
  destruct (_make_list_loop _ _) as [e1|self1] eqn:Hloop.
  - intros [= ->].
    apply _make_list_loop_inl in Hloop as (self1 & c & after & Hstep & Hread); [|done].
    rewrite Htext in Hread.
    change (input_expression_str = read self1 +:+ String c after) in Hread.
    apply _make_list_step_inl in Hstep as [Hprocess|(self2 & near & _ & ->)].
    + apply process_staged_characters_raises in Hprocess
        as [(key & before & -> & Hhash & Hname & Hself)
           |(c1 & near & before & after1 & -> & Hself)].
      * left. exists key, before, (String c after).
        by rewrite Hread, Hself, append_assoc.
      * right. exists c1, near, before, (after1 +:+ String c after).
        by rewrite Hread, Hself, append_assoc.
    + right. by exists c, (near +:+ staged_characters self2 +:+ Py.chr c),
        (read self1), after.
  - cbn [mbind Py.result_bind].
    destruct (process_staged_characters self1) as [e1|self2] eqn:Hprocess; [|done].
    intros [= ->].
    apply _make_list_loop_keeps in Hloop as [_ Hread]; [|done].
    rewrite Htext in Hread.
    change (read self1 = input_expression_str) in Hread.
    apply process_staged_characters_raises in Hprocess
      as [(key & before & -> & Hhash & Hname & Hself)
         |(c1 & near & before & after1 & -> & Hself)].
    + left. exists key, before, "". by rewrite append_empty, <- Hself.
    + right. exists c1, near, before, after1. by rewrite <- Hself.
Qed.
End tokenizer_loop.

Lemma make_list_raises_witness :
  ExpressionTokenizer.make_list "SET #_a = 1" =
    inl (Py.InvalidExpressionAttributeNameKey "#_a")
  ∧ ((∃ key before after,
        Py.InvalidExpressionAttributeNameKey "#_a"
          = Py.InvalidExpressionAttributeNameKey key
        ∧ Py.startswith key "#" = true
        ∧ ExpressionTokenizer.is_expression_attribute_name key = false
        ∧ "SET #_a = 1" = before +:+ key +:+ after)
     ∨ (∃ c near before after,
          Py.InvalidExpressionAttributeNameKey "#_a"
            = Py.InvalidTokenException (Py.chr c) near
          ∧ "SET #_a = 1" = before +:+ String c after)).
Proof.
  assert (ExpressionTokenizer.make_list "SET #_a = 1" =
    inl (Py.InvalidExpressionAttributeNameKey "#_a")) as Hmake by reflexivity.
  split; [exact Hmake|]. exact (make_list_raises _ _ Hmake).
Defined.

Lemma make_list_spells_expression_witness :
  ExpressionTokenizer.make_list "SET #a.b = :v  + 1" =
    inr [ Token.Token Token.ATTRIBUTE "SET"; Token.Token Token.WHITESPACE " ";
          Token.Token Token.ATTRIBUTE_NAME "#a"; Token.Token (Token.Str ".") ".";
          Token.Token Token.ATTRIBUTE "b"; Token.Token Token.WHITESPACE " ";
          Token.Token (Token.Str "=") "="; Token.Token Token.WHITESPACE " ";
          Token.Token Token.ATTRIBUTE_VALUE ":v"; Token.Token Token.WHITESPACE "  ";
          Token.Token (Token.Str "+") "+"; Token.Token Token.WHITESPACE " ";
          Token.Token Token.NUMBER "1" ]
  ∧ ExpressionTokenizer.spelled
      [ Token.Token Token.ATTRIBUTE "SET"; Token.Token Token.WHITESPACE " ";
        Token.Token Token.ATTRIBUTE_NAME "#a"; Token.Token (Token.Str ".") ".";
        Token.Token Token.ATTRIBUTE "b"; Token.Token Token.WHITESPACE " ";
        Token.Token (Token.Str "=") "="; Token.Token Token.WHITESPACE " ";
        Token.Token Token.ATTRIBUTE_VALUE ":v"; Token.Token Token.WHITESPACE "  ";
        Token.Token (Token.Str "+") "+"; Token.Token Token.WHITESPACE " ";
        Token.Token Token.NUMBER "1" ]
    = "SET #a.b = :v  + 1".
Proof.
  assert (ExpressionTokenizer.make_list "SET #a.b = :v  + 1" =
    inr [ Token.Token Token.ATTRIBUTE "SET"; Token.Token Token.WHITESPACE " ";
          Token.Token Token.ATTRIBUTE_NAME "#a"; Token.Token (Token.Str ".") ".";
          Token.Token Token.ATTRIBUTE "b"; Token.Token Token.WHITESPACE " ";
          Token.Token (Token.Str "=") "="; Token.Token Token.WHITESPACE " ";
          Token.Token Token.ATTRIBUTE_VALUE ":v"; Token.Token Token.WHITESPACE "  ";
          Token.Token (Token.Str "+") "+"; Token.Token Token.WHITESPACE " ";
          Token.Token Token.NUMBER "1" ]) as Hmake by reflexivity.
  split; [exact Hmake|]. exact (make_list_spells_expression _ _ Hmake).
Defined.

Lemma make_list_classified_witness :
  ExpressionTokenizer.make_list "a1 = :v" =
    inr [ Token.Token Token.ATTRIBUTE "a1"; Token.Token Token.WHITESPACE " ";
          Token.Token (Token.Str "=") "="; Token.Token Token.WHITESPACE " ";
          Token.Token Token.ATTRIBUTE_VALUE ":v" ]
  ∧ forallb ExpressionTokenizer.classified
      [ Token.Token Token.ATTRIBUTE "a1"; Token.Token Token.WHITESPACE " ";
        Token.Token (Token.Str "=") "="; Token.Token Token.WHITESPACE " ";
        Token.Token Token.ATTRIBUTE_VALUE ":v" ] = true.
Proof.
  assert (ExpressionTokenizer.make_list "a1 = :v" =
    inr [ Token.Token Token.ATTRIBUTE "a1"; Token.Token Token.WHITESPACE " ";
          Token.Token (Token.Str "=") "="; Token.Token Token.WHITESPACE " ";
          Token.Token Token.ATTRIBUTE_VALUE ":v" ]) as Hmake by reflexivity.
  split; [exact Hmake|]. exact (make_list_classified _ _ Hmake).
Defined.

Lemma make_list_merges_whitespace_witness :
  ExpressionTokenizer.make_list "a   b" =
    inr [ Token.Token Token.ATTRIBUTE "a"; Token.Token Token.WHITESPACE "   ";
          Token.Token Token.ATTRIBUTE "b" ]
  ∧ ExpressionTokenizer.whitespace_merged
      [ Token.Token Token.ATTRIBUTE "a"; Token.Token Token.WHITESPACE "   ";
        Token.Token Token.ATTRIBUTE "b" ] = true.
Proof.
  assert (ExpressionTokenizer.make_list "a   b" =
    inr [ Token.Token Token.ATTRIBUTE "a"; Token.Token Token.WHITESPACE "   ";
          Token.Token Token.ATTRIBUTE "b" ]) as Hmake by reflexivity.
  split; [exact Hmake|]. exact (make_list_merges_whitespace _ _ Hmake).
Defined.

(** ** Equality, children and projection of values *)

Section values.
Import DynamoType.

(** [__eq__] holds between equal values and no others: it is reflexive,
    symmetric and transitive. *)
Theorem eq_is_equality self other : __eq__ self other = true ↔ self = other.
Proof.
  split; [apply __eq___eq|]. intros ->. apply __eq___refl.
Qed.

(** Where [child_attr] returns a child, [__getitem__] returns an equal
    one. *)
Theorem child_attr_getitem type_text self key child :
  child_attr self key = Some child →
  __getitem__ type_text self key = inr child.
Proof.
  destruct key as [i|s|], self as [| | |l|m]; try done; cbn.
  - destruct (_ && _); [|done].
    cbn. destruct (l !! Z.to_nat i) as [member|]; [|done].
    cbn. rewrite copy_id. by intros [= ->].
  - destruct (m !! s) as [member|]; [|done].
    cbn. rewrite copy_id. by intros [= ->].
Qed.

(** A negative index counts from the end of a list for [__getitem__], and
    is no child for [child_attr]. *)
Theorem getitem_negative_index type_text l i :
  (- Z.of_nat (length l) ≤ i < 0)%Z →
  ∃ member,
    l !! Z.to_nat (Z.of_nat (length l) + i) = Some member
    ∧ __getitem__ type_text (List l) (KInt i) = inr member
    ∧ child_attr (List l) (KInt i) = None.
Proof.
  intros Hi.
  destruct (lookup_lt_is_Some_2 l (Z.to_nat (Z.of_nat (length l) + i)))
    as [member Hmember]; [lia|].
  exists member. split; [done|]. cbn.
  assert ((0 <=? i)%Z = false) as -> by lia.
  assert ((- Z.of_nat (length l) <=? i)%Z = true) as -> by lia.
  assert ((i <? 0)%Z = true) as -> by lia.
  cbn. by rewrite Hmember.
Qed.

(** The index of the list that [__setitem__] writes under the key [i]. *)
Lemma setitem_List l i value self' :
  __setitem__ (List l) (KInt i) value = inr self' →
  let n := Z.of_nat (length l) in
  (- n ≤ i)%Z
  ∧ self' = List (if (i >=? n)%Z then l ++ [value]
                  else <[Z.to_nat (if (i <? 0)%Z then n + i else i) := value]> l).
Proof.
  cbn. destruct (Z.geb_spec i (Z.of_nat (length l))) as [Hge|Hlt].
  { intros [= <-]. split; [lia|done]. }
  unfold Py.list_setitem.
  destruct (Z.leb_spec 0 i) as [H0|H0]; cbn.
  - assert ((i <? Z.of_nat (length l))%Z = true) as -> by lia.
    cbn. intros [= <-]. split; [lia|].
    by assert ((i <? 0)%Z = false) as -> by lia.
  - destruct (Z.leb_spec (- Z.of_nat (length l)) i) as [Hn|Hn]; cbn.
    + assert ((i <? 0)%Z = true) as -> by lia. cbn. by intros [= <-].
    + done.
Qed.

(** After [self[key] = value], for a map and a [str] or for a list and an
    [int], [self[key]] is [value]; where the value was appended to the list,
    it is under the old length. *)
Theorem setitem_getitem type_text self key value self' :
  __setitem__ self key value = inr self' →
  match self, key with
  | Map _, KStr _ => __getitem__ type_text self' key = inr value
  | List l, KInt i =>
      __getitem__ type_text self' (KInt (Z.min i (Z.of_nat (length l)))) = inr value
  | _, _ => self' = self
  end.
Proof.
  destruct self as [| | |l|m], key as [i|s|]; try (by intros [= <-]); try done.
  - intros [Hi ->]%setitem_List.
    destruct (Z.geb_spec i (Z.of_nat (length l))) as [Hge|Hlt]; cbn.
    + rewrite length_app, Z.min_r by lia. cbn.
      rewrite (proj2 (Z.leb_le _ _)), (proj2 (Z.ltb_lt _ _)) by lia.
      cbn. rewrite Nat2Z.id, lookup_app_r by lia.
      by rewrite Nat.sub_diag.
    + rewrite length_insert, Z.min_l by lia.
      destruct (Z.ltb_spec i 0) as [Hneg|Hpos].
      * assert ((0 <=? i)%Z = false) as -> by lia.
        assert ((- Z.of_nat (length l) <=? i)%Z = true) as -> by lia.
        cbn. rewrite list_lookup_insert_eq by lia. done.
      * assert ((0 <=? i)%Z = true) as -> by lia.
        assert ((i <? Z.of_nat (length l))%Z = true) as -> by lia.
        cbn. rewrite list_lookup_insert_eq by lia. done.
  - cbn. intros [= <-]. cbn. by rewrite lookup_insert_eq.
Qed.

(** [self[key] = value] on a map changes no child under another key. *)
Theorem setitem_map_keeps_children value_ s value key :
  key ≠ KStr s →
  ∃ self',
    __setitem__ (Map value_) (KStr s) value = inr self'
    ∧ child_attr self' (KStr s) = Some value
    ∧ child_attr self' key = child_attr (Map value_) key.
Proof.
  intros Hkey. eexists. split; [done|]. cbn. split.
  - by rewrite lookup_insert_eq; cbn; rewrite copy_id.
  - destruct key as [i|s'|]; try done. cbn.
    rewrite lookup_insert_ne; [done|]. by intros ->.
Qed.

Lemma size_Map_insert (value : gmap string t) attr member :
  value !! attr = None →
  size (Map (<[attr := member]> value))
    = bytesize attr + size member + size (Map value).
Proof.
  intros Hattr. cbn [size].
  rewrite map_fold_insert_L; [done| |done].
  intros. lia.
Qed.

Lemma size_Map_imap (f : string → t → option t) (value : gmap string t) :
  (∀ attr member kept,
     value !! attr = Some member → f attr member = Some kept →
     (size kept ≤ size member)%nat) →
  (size (Map (map_imap f value)) ≤ size (Map value))%nat.
Proof.
  induction value as [|attr member value Hattr IH] using map_ind; intros Hf.
  { by rewrite map_imap_empty. }
  assert (map_imap f value !! attr = None) as Himap.
  { by rewrite map_lookup_imap, Hattr. }
  assert (size (Map (map_imap f value)) ≤ size (Map value))%nat as Hrest.
  { apply IH. intros attr' member' kept Hmember'. apply Hf.
    rewrite lookup_insert_ne; [done|]. intros ->. by rewrite Hattr in Hmember'. }
  rewrite map_imap_insert, (size_Map_insert value) by done.
  destruct (f attr member) as [kept|] eqn:Hkept.
  - rewrite size_Map_insert by done.
    pose proof (Hf attr member kept (lookup_insert_eq _ _ _) Hkept). lia.
  - rewrite delete_id by done. lia.
Qed.

(** A projection does not make a value larger. *)
Theorem filter_size self projection_expressions :
  (size (filter self projection_expressions) ≤ size self)%nat.
Proof.
  revert projection_expressions.
  induction self as [| | | |value IH] using value_ind;
    intros projection_expressions; try done.
  rewrite filter_Map. apply size_Map_imap.
  intros attr member kept Hmember. unfold projected.
  destruct (bool_decide (attr ∈ nested_projections _)).
  - intros [= <-]. by apply (IH attr member).
  - destruct (bool_decide (attr ∈ _)); [|done]. by intros [= <-].
Qed.

(** Projecting twice by the same expressions is projecting once. *)
Theorem filter_idempotent self projection_expressions :
  filter (filter self projection_expressions) projection_expressions
    = filter self projection_expressions.
Proof.
  revert projection_expressions.
  induction self as [| | | |value IH] using value_ind;
    intros projection_expressions; try done.
  rewrite !filter_Map. f_equal. apply map_eq. intros attr.
  rewrite !map_lookup_imap.
  destruct (value !! attr) as [member|] eqn:Hmember; [|done].
  cbn. destruct (projected _ attr member) as [kept|] eqn:Hkept; [|done].
  cbn. revert Hkept. unfold projected.
  destruct (bool_decide (attr ∈ nested_projections _)).
  - intros [= <-]. f_equal. by apply (IH attr member).
  - by destruct (bool_decide (attr ∈ _)).
Qed.
End values.

Section integer_arithmetic.
Import DynamoType.
Context `{Py.Float}.

(** The sum of two numbers whose texts have no ["."]. *)
Lemma add_of_integers a b :
  Py.contains "." a = false → Py.contains "." b = false →
  __add__ (Text N_ a) (Text N_ b)
    = x ← Py.int a; y ← Py.int b; inr (Text N_ (Py.str_of_int (x + y))).
Proof.
  intros Ha Hb. unfold __add__. cbn [text].
  rewrite bool_decide_eq_false_2 by (by intros []).
  cbn [negb is_number]. rewrite !number_of_int_text by done.
  destruct (Py.int a) as [e|x]; [done|].
  by destruct (Py.int b) as [e|y].
Qed.

Lemma sub_of_integers a b :
  Py.contains "." a = false → Py.contains "." b = false →
  __sub__ (Text N_ a) (Text N_ b)
    = x ← Py.int a; y ← Py.int b; inr (Text N_ (Py.str_of_int (x - y))).
Proof.
  intros Ha Hb. unfold __sub__. cbn [text].
  rewrite bool_decide_eq_false_2 by (by intros []).
  cbn. rewrite !number_of_int_text by done.
  destruct (Py.int a) as [e|x]; [done|].
  by destruct (Py.int b) as [e|y].
Qed.

(** Subtracting from a sum of two integers what was added gives the first
    integer back, in the decimal text of [str]. *)
Theorem sub_undoes_add a b total :
  Py.contains "." a = false → Py.contains "." b = false →
  __add__ (Text N_ a) (Text N_ b) = inr total →
  ∃ x, Py.int a = inr x
       ∧ __sub__ total (Text N_ b) = inr (Text N_ (Py.str_of_int x)).
Proof.
  intros Ha Hb. rewrite add_of_integers by done.
  destruct (Py.int a) as [e|x] eqn:Hx; [done|].
  destruct (Py.int b) as [e|y] eqn:Hy; [done|].
  cbn. intros [= <-]. exists x. split; [done|].
  rewrite sub_of_integers by (done || apply no_dot_in_str_of_int).
  rewrite int_str_of_int, Hy. cbn. do 3 f_equal. lia.
Qed.

(** The sum of two integers does not depend on their order, an error
    included. *)
Theorem add_of_integers_commutes a b :
  Py.contains "." a = false → Py.contains "." b = false →
  __add__ (Text N_ a) (Text N_ b) = __add__ (Text N_ b) (Text N_ a).
Proof.
  intros Ha Hb. rewrite !add_of_integers by done.
  destruct (Py.int a) as [e|x] eqn:Hx, (Py.int b) as [e'|y] eqn:Hy; cbn.
  - by apply int_raises_ValueError in Hx as ->, Hy as ->.
  - done.
  - done.
  - by rewrite Z.add_comm.
Qed.
End integer_arithmetic.

Lemma child_attr_getitem_witness :
  DynamoType.child_attr
    (DynamoType.List [DynamoType.Text DynamoType.S_ "a"; DynamoType.Text DynamoType.S_ "b"])
    (DynamoType.KInt 1)
  = Some (DynamoType.Text DynamoType.S_ "b")
  ∧ DynamoType.__getitem__ (λ _, "<class 'int'>")
      (DynamoType.List [DynamoType.Text DynamoType.S_ "a"; DynamoType.Text DynamoType.S_ "b"])
      (DynamoType.KInt 1)
    = inr (DynamoType.Text DynamoType.S_ "b").
Proof.
  split; [reflexivity|]. apply child_attr_getitem. reflexivity.
Defined.

Lemma getitem_negative_index_witness :
  (- Z.of_nat (length [DynamoType.Text DynamoType.S_ "a"; DynamoType.Text DynamoType.S_ "b"])
     ≤ -1 < 0)%Z
  ∧ ∃ member,
      [DynamoType.Text DynamoType.S_ "a"; DynamoType.Text DynamoType.S_ "b"]
        !! Z.to_nat
             (Z.of_nat (length [DynamoType.Text DynamoType.S_ "a";
                                DynamoType.Text DynamoType.S_ "b"]) + -1)
      = Some member
      ∧ DynamoType.__getitem__ (λ _, "<class 'int'>")
          (DynamoType.List [DynamoType.Text DynamoType.S_ "a";
                            DynamoType.Text DynamoType.S_ "b"])
          (DynamoType.KInt (-1))
        = inr member
      ∧ DynamoType.child_attr
          (DynamoType.List [DynamoType.Text DynamoType.S_ "a";
                            DynamoType.Text DynamoType.S_ "b"])
          (DynamoType.KInt (-1))
        = None.
Proof.
  split; [simpl; lia|]. apply getitem_negative_index. simpl; lia.
Defined.

Lemma setitem_getitem_witness :
  DynamoType.__setitem__
    (DynamoType.List [DynamoType.Text DynamoType.S_ "a"]) (DynamoType.KInt 5)
    (DynamoType.Text DynamoType.S_ "b")
  = inr (DynamoType.List [DynamoType.Text DynamoType.S_ "a"; DynamoType.Text DynamoType.S_ "b"])
  ∧ DynamoType.__getitem__ (λ _, "<class 'int'>")
      (DynamoType.List [DynamoType.Text DynamoType.S_ "a"; DynamoType.Text DynamoType.S_ "b"])
      (DynamoType.KInt (Z.min 5 (Z.of_nat (length [DynamoType.Text DynamoType.S_ "a"]))))
    = inr (DynamoType.Text DynamoType.S_ "b").
Proof.
  split; [reflexivity|].
  apply (setitem_getitem _ (DynamoType.List [DynamoType.Text DynamoType.S_ "a"])
           (DynamoType.KInt 5)).
  reflexivity.
Defined.

Lemma setitem_map_keeps_children_witness :
  DynamoType.KStr "b" ≠ DynamoType.KStr "a"
  ∧ ∃ self',
      DynamoType.__setitem__ (DynamoType.Map ∅) (DynamoType.KStr "a")
        (DynamoType.Text DynamoType.S_ "x") = inr self'
      ∧ DynamoType.child_attr self' (DynamoType.KStr "a")
        = Some (DynamoType.Text DynamoType.S_ "x")
      ∧ DynamoType.child_attr self' (DynamoType.KStr "b")
        = DynamoType.child_attr (DynamoType.Map ∅) (DynamoType.KStr "b").
Proof.
  split; [discriminate|]. apply setitem_map_keeps_children. discriminate.
Defined.

Lemma sub_undoes_add_witness :
  Py.contains "." "007" = false ∧ Py.contains "." "4" = false
  ∧ DynamoType.__add__ (H := Py.cpython_float)
      (DynamoType.Text DynamoType.N_ "007") (DynamoType.Text DynamoType.N_ "4")
    = inr (DynamoType.Text DynamoType.N_ "11")
  ∧ ∃ x, Py.int "007" = inr x
         ∧ DynamoType.__sub__ (H := Py.cpython_float)
             (DynamoType.Text DynamoType.N_ "11") (DynamoType.Text DynamoType.N_ "4")
           = inr (DynamoType.Text DynamoType.N_ (Py.str_of_int x)).
Proof.
  split; [reflexivity|]. split; [reflexivity|]. split; [reflexivity|].
  apply (sub_undoes_add (H := Py.cpython_float) "007" "4"); reflexivity.
Defined.

Lemma add_of_integers_commutes_witness :
  Py.contains "." "3" = false ∧ Py.contains "." "x" = false
  ∧ DynamoType.__add__ (H := Py.cpython_float)
      (DynamoType.Text DynamoType.N_ "3") (DynamoType.Text DynamoType.N_ "x")
    = DynamoType.__add__ (H := Py.cpython_float)
        (DynamoType.Text DynamoType.N_ "x") (DynamoType.Text DynamoType.N_ "3").
Proof.
  split; [reflexivity|]. split; [reflexivity|].
  apply (add_of_integers_commutes (H := Py.cpython_float)); reflexivity.
Defined.

(** ** The repositories of CodeCommit *)

Section codecommit.
Import CodeCommitBackend.
Variable ACCOUNT_ID : string.


Lemma create_repository_inr self current_date uuid4 region name description self' metadata :
  create_repository ACCOUNT_ID self current_date uuid4 region name description
    = inr (self', metadata) →
  repositories self !! name = None
  ∧ self' = CodeCommitBackend
              (<[name := CodeCommit.__init__ ACCOUNT_ID current_date uuid4
                           region description name]> (repositories self))
  ∧ metadata = CodeCommit.repository_metadata
                 (CodeCommit.__init__ ACCOUNT_ID current_date uuid4
                    region description name).
Proof.
  unfold CodeCommitBackend.create_repository.
  destruct (repositories self !! name); [done|].
  cbn [repositories]. rewrite lookup_insert_eq. by intros [= <- <-].
Qed.

(** A repository is created unless its name is taken, and then
    [RepositoryNameExistsException] is raised, with the name. *)
Theorem create_repository_raises self current_date uuid4 region name description :
  match create_repository ACCOUNT_ID self current_date uuid4 region name description with
  | inl e =>
      e = RepositoryNameExistsException name
      ∧ ∃ metadata, get_repository self name = inr metadata
  | inr _ => get_repository self name = inl (RepositoryDoesNotExistException name)
  end.
Proof.
  unfold CodeCommitBackend.create_repository, get_repository.
  destruct (repositories self !! name) as [repository|]; [by eauto|].
  cbn [repositories]. by rewrite lookup_insert_eq.
Qed.

(** After a repository is created, [get_repository] returns the metadata
    that [create_repository] returned, which names the repository, its
    identifier and its account; the other repositories are as before. *)
Theorem create_repository_get self current_date uuid4 region name description
    self' metadata :
  create_repository ACCOUNT_ID self current_date uuid4 region name description
    = inr (self', metadata) →
  get_repository self' name = inr metadata
  ∧ metadata !! "repositoryName" = Some name
  ∧ metadata !! "repositoryId" = Some uuid4
  ∧ metadata !! "accountId" = Some ACCOUNT_ID
  ∧ metadata !! "Arn"
      = Some ("arn:aws:codecommit:" +:+ region +:+ ":" +:+ ACCOUNT_ID +:+ ":" +:+ name)
  ∧ ∀ other, other ≠ name → get_repository self' other = get_repository self other.
Proof.
  intros (Hname & -> & ->)%create_repository_inr.
  unfold get_repository. cbn [repositories].
  rewrite lookup_insert_eq. repeat split.
  intros other Hother. by rewrite lookup_insert_ne.
Qed.

(** Deleting the repository that was just created gives its identifier and
    the backend of before the creation. *)
Theorem create_repository_delete self current_date uuid4 region name description
    self' metadata :
  create_repository ACCOUNT_ID self current_date uuid4 region name description
    = inr (self', metadata) →
  delete_repository self' name = (self, Some uuid4).
Proof.
  intros (Hname & -> & ->)%create_repository_inr.
  unfold delete_repository. cbn [repositories].
  rewrite lookup_insert_eq, delete_insert_eq, delete_id by done.
  by destruct self.
Qed.

(** After [delete_repository] the repository does not exist, whether it did
    before or not; the other repositories are as before, and the backend is
    unchanged when there was nothing to delete. *)
Theorem delete_repository_get self name :
  let '(self', _) := delete_repository self name in
  get_repository self' name = inl (RepositoryDoesNotExistException name)
  ∧ (∀ other, other ≠ name → get_repository self' other = get_repository self other)
  ∧ (get_repository self name = inl (RepositoryDoesNotExistException name) →
     self' = self).
Proof.
  unfold delete_repository, get_repository.
  destruct (repositories self !! name) as [repository|] eqn:Hname; cbn [repositories].
  - rewrite lookup_delete_eq. split; [done|]. split; [|done].
    intros other Hother. by rewrite lookup_delete_ne.
  - by rewrite Hname.
Qed.

Lemma named_after self c : named self → named (after ACCOUNT_ID self c).
Proof.
  intros Hself. destruct c as [current_date uuid4 region name description|name];
    cbn [CodeCommitBackend.after].
  - destruct (create_repository _ _ _ _ _ _ _) as [e|[self' metadata]] eqn:Hcreate;
      [done|].
    apply create_repository_inr in Hcreate as (Hname & -> & _).
    intros name' repository. cbn [repositories].
    destruct (decide (name' = name)) as [->|Hne].
    + rewrite lookup_insert_eq. intros [= <-]. by split; [|eexists].
    + rewrite lookup_insert_ne by done. apply Hself.
  - unfold delete_repository.
    destruct (repositories self !! name) as [repository|] eqn:Hname; [|done].
    intros name' repository'. cbn [fst repositories].
    destruct (decide (name' = name)) as [->|Hne].
    + by rewrite lookup_delete_eq.
    + rewrite lookup_delete_ne by done. apply Hself.
Qed.

Lemma named_calls calls : named (foldl (after ACCOUNT_ID) CodeCommitBackend.__init__ calls).
Proof.
  induction calls as [|c calls IH] using rev_ind.
  - intros name repository. cbn. by rewrite lookup_empty.
  - rewrite foldl_app. by apply named_after.
Qed.

(** After any creations and deletions on a new backend, [delete_repository]
    returns [None] for the repositories that do not exist and for no
    others, and the metadata of an existing repository is under its name. *)
Theorem delete_repository_returns calls name :
  let self := foldl (after ACCOUNT_ID) CodeCommitBackend.__init__ calls in
  ((delete_repository self name).2 = None
   ↔ get_repository self name = inl (RepositoryDoesNotExistException name))
  ∧ (∀ metadata, get_repository self name = inr metadata →
                 metadata !! "repositoryName" = Some name).
Proof.
  intros self. pose proof (named_calls calls name) as Hnamed. fold self in Hnamed.
  unfold delete_repository, get_repository.
  destruct (repositories self !! name) as [repository|]; [|done].
  destruct (Hnamed repository eq_refl) as [Hrepository [uuid4 Hid]].
  cbn [snd]. rewrite Hid. split; [by split|]. by intros ? [= <-].
Qed.
End codecommit.

Lemma create_repository_get_witness :
  CodeCommitBackend.create_repository "123456789012" CodeCommitBackend.__init__
    "2021-09-01T00:00:00.000Z" "8f3a" "eu-west-1" "repo" "a repository"
  = inr (CodeCommitBackend.CodeCommitBackend
           {[ "repo" := CodeCommit.__init__ "123456789012" "2021-09-01T00:00:00.000Z"
                          "8f3a" "eu-west-1" "a repository" "repo" ]},
         CodeCommit.repository_metadata
           (CodeCommit.__init__ "123456789012" "2021-09-01T00:00:00.000Z"
              "8f3a" "eu-west-1" "a repository" "repo"))
  ∧ CodeCommit.repository_metadata
      (CodeCommit.__init__ "123456789012" "2021-09-01T00:00:00.000Z"
         "8f3a" "eu-west-1" "a repository" "repo") !! "Arn"
    = Some "arn:aws:codecommit:eu-west-1:123456789012:repo".
Proof.
  assert (CodeCommitBackend.create_repository "123456789012" CodeCommitBackend.__init__
            "2021-09-01T00:00:00.000Z" "8f3a" "eu-west-1" "repo" "a repository"
          = inr (CodeCommitBackend.CodeCommitBackend
                   {[ "repo" := CodeCommit.__init__ "123456789012"
                                  "2021-09-01T00:00:00.000Z"
                                  "8f3a" "eu-west-1" "a repository" "repo" ]},
                 CodeCommit.repository_metadata
                   (CodeCommit.__init__ "123456789012" "2021-09-01T00:00:00.000Z"
                      "8f3a" "eu-west-1" "a repository" "repo")))
    as Hcreate by reflexivity.
  split; [exact Hcreate|].
  exact (proj1 (proj2 (proj2 (proj2 (proj2
           (create_repository_get _ _ _ _ _ _ _ _ _ Hcreate)))))).
Defined.

Lemma create_repository_delete_witness :
  CodeCommitBackend.create_repository "123456789012" CodeCommitBackend.__init__
    "2021-09-01T00:00:00.000Z" "8f3a" "eu-west-1" "repo" "a repository"
  = inr (CodeCommitBackend.CodeCommitBackend
           {[ "repo" := CodeCommit.__init__ "123456789012" "2021-09-01T00:00:00.000Z"
                          "8f3a" "eu-west-1" "a repository" "repo" ]},
         CodeCommit.repository_metadata
           (CodeCommit.__init__ "123456789012" "2021-09-01T00:00:00.000Z"
              "8f3a" "eu-west-1" "a repository" "repo"))
  ∧ CodeCommitBackend.delete_repository
      (CodeCommitBackend.CodeCommitBackend
         {[ "repo" := CodeCommit.__init__ "123456789012" "2021-09-01T00:00:00.000Z"
                        "8f3a" "eu-west-1" "a repository" "repo" ]})
      "repo"
    = (CodeCommitBackend.__init__, Some "8f3a").
Proof.
  assert (CodeCommitBackend.create_repository "123456789012" CodeCommitBackend.__init__
            "2021-09-01T00:00:00.000Z" "8f3a" "eu-west-1" "repo" "a repository"
          = inr (CodeCommitBackend.CodeCommitBackend
                   {[ "repo" := CodeCommit.__init__ "123456789012"
                                  "2021-09-01T00:00:00.000Z"
                                  "8f3a" "eu-west-1" "a repository" "repo" ]},
                 CodeCommit.repository_metadata
                   (CodeCommit.__init__ "123456789012" "2021-09-01T00:00:00.000Z"
                      "8f3a" "eu-west-1" "a repository" "repo")))
    as Hcreate by reflexivity.
  split; [exact Hcreate|].
  exact (create_repository_delete _ _ _ _ _ _ _ _ _ Hcreate).
Defined.

(** ** The generated identifiers *)

Section identifiers.

Lemma choice_member {A} (seq : list A) (draw : nat) :
  seq ≠ [] → ∃ member, random.choice seq draw = inr member ∧ member ∈ seq.
Proof.
  intros Hseq. unfold random.choice.
  destruct (lookup_lt_is_Some_2 seq (draw mod length seq)) as [member Hmember].
  { apply Nat.mod_upper_bound. by destruct seq. }
  exists member. rewrite Hmember. split; [done|]. by eapply list_elem_of_lookup_2.
Qed.

(** The text that is joined from [size] choices among one-character members
    has [size] characters, each of them a member. *)
Lemma join_choices_spec (chars : list chars.member) (P : ascii → Prop) size draw :
  chars ≠ [] →
  Forall (λ member, ∃ c, chars.str member = Py.chr c ∧ P c) chars →
  ∃ text,
    chars.join_choices chars size draw = inr text
    ∧ String.length text = size
    ∧ Forall P (list_ascii_of_string text).
Proof.
  intros Hne Hchars. unfold chars.join_choices.
  pose proof (length_seq size 0) as Hsize. revert Hsize.
  generalize (seq 0 size). intros l <-.
  induction l as [|i l (text & Hjoin & Hlength & Htext)].
  { by exists "". }
  cbn [mapM].
  destruct (choice_member chars (draw i) Hne) as (member & -> & Hmember).
  cbn [mbind Py.result_bind].
  destruct (mapM _ l) as [e|choices]; [done|].
  cbn in Hjoin. injection Hjoin as <-.
  apply (proj1 (Forall_forall _ _) Hchars) in Hmember as (c & Hc & HP).
  eexists. split; [done|]. cbn [fmap list_fmap foldr]. rewrite Hc.
  change (Py.chr c +:+ ?s) with (String c s).
  cbn [String.length list_ascii_of_string length].
  split; [by f_equal|]. by constructor.
Qed.

(** An identifier of [create_id] has ten characters, each a digit or a
    small letter of ASCII, whatever the generator draws. *)
Theorem create_id_shape draw :
  ∃ id,
    apigateway.create_id draw = inr id
    ∧ String.length id = 10
    ∧ Forall (λ c, Py.isdigit c || Py.between 97 122 c = true)
        (list_ascii_of_string id).
Proof.
  apply join_choices_spec; [done|].
  repeat (constructor; [by eexists|]). constructor.
Qed.

(** A suffix of [random_suffix] has twelve characters, each a digit or a
    capital letter of ASCII, whatever the generator draws. *)
Theorem random_suffix_shape draw :
  ∃ suffix,
    cloudformation.random_suffix draw = inr suffix
    ∧ String.length suffix = 12
    ∧ Forall (λ c, Py.isdigit c || Py.between 65 90 c = true)
        (list_ascii_of_string suffix).
Proof.
  apply join_choices_spec; [done|].
  repeat (constructor; [by eexists|]). constructor.
Qed.
End identifiers.

(** ** The region of a URL *)

Section region.
Import applicationautoscaling.

(** The parts of a text are what stands between the separators. *)
Lemma split_parts_spec c s :
  let '(part, parts) := split_parts c s in
  Py.contains c part = false
  ∧ Forall (λ p, Py.contains c p = false) parts
  ∧ s = part +:+ foldr (λ p text, String c p +:+ text) "" parts
  ∧ (Py.contains c s = true → parts ≠ []).
Proof.
  induction s as [|d s IH]; [done|]. cbn [split_parts].
  destruct (split_parts c s) as [part parts].
  destruct IH as (Hpart & Hparts & Hs & Hne). cbn [Py.contains].
  destruct (Ascii.eqb_spec d c) as [->|Hd].
  - split; [done|]. split; [by constructor|]. split; [|done].
    cbn. by rewrite Hs.
  - cbn. rewrite (proj2 (Ascii.eqb_neq d c)) by done.
    split; [done|]. split; [done|]. split; [by rewrite Hs|done].
Qed.

(** The only exception of [region_from_applicationautoscaling_url] is the
    one that [urlparse] raises on the url; on a url that [urlparse] accepts,
    the region is found without an [IndexError]: it is what stands between
    the first and the second ["."] of the domain, or after the first when
    there is no second, and [us-east-1] for a domain without a ["."]. *)
Theorem region_from_url (netloc : string → Py.result string) url :
  match netloc url with
  | inl e => region_from_applicationautoscaling_url netloc url = inl e
  | inr domain =>
      ∃ region,
        region_from_applicationautoscaling_url netloc url = inr region
        ∧ Py.contains "." region = false
        ∧ if Py.contains "." domain
          then ∃ host rest,
                 domain = host +:+ "." +:+ region +:+ rest
                 ∧ Py.contains "." host = false
                 ∧ (rest = "" ∨ Py.startswith rest "." = true)
          else region = "us-east-1"
  end.
Proof.
  unfold region_from_applicationautoscaling_url, split.
  destruct (netloc url) as [e|domain]; [done|]. cbn [mbind Py.result_bind].
  pose proof (split_parts_spec "." domain) as Hsplit.
  destruct (split_parts "." domain) as [host parts].
  destruct Hsplit as (Hhost & Hparts & Hdomain & Hne).
  destruct (Py.contains "." domain); [|by exists "us-east-1"].
  destruct parts as [|region parts]; [by destruct Hne|].
  exists region. cbn. apply Forall_cons in Hparts as [Hregion Hparts].
  split; [done|]. split; [done|].
  exists host, (foldr (λ p text, String "." p +:+ text) "" parts).
  split; [|split; [done|]].
  - rewrite Hdomain. cbn. done.
  - destruct parts as [|p parts]; [by left|right].
    cbn [foldr]. rewrite String_app. cbn. by destruct (p +:+ _).
Qed.
End region.

(** ** The size of a value after an assignment *)

Section setitem_sizes.
Import DynamoType.

Lemma sum_list_insert (l : list nat) i a b :
  l !! i = Some a → (sum_list (<[i := b]> l) + a = sum_list l + b)%nat.
Proof.
  revert i. induction l as [|x l IH]; intros [|i]; try done; simpl.
  - intros [= ->]. lia.
  - intros Hi. specialize (IH i Hi). lia.
Qed.

Lemma sum_list_snoc (l : list nat) a : sum_list (l ++ [a]) = (sum_list l + a)%nat.
Proof. induction l as [|x l IH]; simpl; lia. Qed.

(** [self[key] = value] adds the size of the value, and that of the key for
    a new key of a map, and takes off the size of the member that the value
    replaces. *)
Theorem setitem_size self key value self' :
  __setitem__ self key value = inr self' →
  match self, key with
  | Map m, KStr s =>
      match m !! s with
      | Some old => size self' + size old = size self + size value
      | None => size self' = size self + bytesize s + size value
      end
  | List l, KInt i =>
      if (i >=? Z.of_nat (length l))%Z then size self' = size self + size value
      else ∃ old,
             l !! Z.to_nat (if (i <? 0)%Z then Z.of_nat (length l) + i else i)
               = Some old
             ∧ size self' + size old = size self + size value
  | _, _ => size self' = size self
  end%nat.
Proof.
  destruct self as [| | |l|m], key as [i|s|]; try (by intros [= <-]); try done.
  - intros [Hi ->]%setitem_List.
    destruct (Z.geb_spec i (Z.of_nat (length l))) as [Hge|Hlt].
    + cbn [size]. rewrite fmap_app.
      change (size <$> [value]) with [size value]. by rewrite sum_list_snoc.
    + set (index := Z.to_nat _).
      destruct (lookup_lt_is_Some_2 l index) as [old Hold].
      { unfold index. destruct (i <? 0)%Z eqn:?; lia. }
      exists old. split; [done|]. cbn [size].
      rewrite list_fmap_insert. apply sum_list_insert.
      by rewrite list_lookup_fmap, Hold.
  - cbn [__setitem__]. intros [= <-].
    destruct (m !! s) as [old|] eqn:Hold.
    + assert (size (Map m) = bytesize s + size old + size (Map (delete s m)))%nat
        as Hbefore.
      { rewrite <- (insert_delete_id m s old Hold) at 1.
        apply size_Map_insert, lookup_delete_eq. }
      assert (size (Map (<[s := value]> m))
              = bytesize s + size value + size (Map (delete s m)))%nat as Hafter.
      { rewrite <- (insert_delete_eq m).
        apply size_Map_insert, lookup_delete_eq. }
      lia.
    + rewrite size_Map_insert by done. lia.
Qed.
End setitem_sizes.

Lemma setitem_size_witness :
  DynamoType.__setitem__
    (DynamoType.List [DynamoType.Text DynamoType.S_ "abc"]) (DynamoType.KInt (-1))
    (DynamoType.Text DynamoType.N_ "12345")
  = inr (DynamoType.List [DynamoType.Text DynamoType.N_ "12345"])
  ∧ ∃ old,
      [DynamoType.Text DynamoType.S_ "abc"] !! 0%nat = Some old
      ∧ (DynamoType.size (DynamoType.List [DynamoType.Text DynamoType.N_ "12345"])
           + DynamoType.size old
         = DynamoType.size (DynamoType.List [DynamoType.Text DynamoType.S_ "abc"])
           + DynamoType.size (DynamoType.Text DynamoType.N_ "12345"))%nat.
Proof.
  split; [reflexivity|].
  apply (setitem_size (DynamoType.List [DynamoType.Text DynamoType.S_ "abc"])
           (DynamoType.KInt (-1)) (DynamoType.Text DynamoType.N_ "12345")).
  reflexivity.
Defined.
